(** * caikit-nlp: fine-tuning wrapper and reranker contract

    A shallow embedding of [caikit_nlp/modules/text_generation/fine_tuning.py]
    (class [FineTuning]: [train], [run], [_preprocess_function]) and of the
    reranker contract exercised by [tests/modules/reranker/test_reranks.py].

    Python exceptions are values of [exn]; a method body is a computation in
    the monad [M], which carries the raised exception or the returned value
    together with the log lines and library calls made on the way.  The
    embedding is of the method bodies: the class decorators ([module],
    [work_in_progress]) belong to the hosting runtime. *)

From Stdlib Require Import ZArith QArith.
From stdpp Require Import gmap strings list sorting.

Open Scope string_scope.
Open Scope list_scope.
Open Scope Z_scope.

(** ** Python values, exceptions and the trace of a call *)

(** Scalars found in keyword dictionaries and in reranker documents. *)
Inductive value :=
| VNone
| VBool (b : bool)
| VInt (z : Z)
| VFloat (q : Q)
| VStr (s : string).

(** The exception classes the two modules raise.  [ConfigurationError] is the
    error of [error(log_code, message)] called with a message. *)
Inductive exn :=
| TypeError (msg : string)
| ValueError (msg : string)
| FileExistsError (msg : string)
| NotImplementedError (msg : string)
| IndexError (msg : string)
| ConfigurationError (msg : string)
| FileNotFoundError (msg : string).

(** What a call leaves behind besides its result. *)
Inductive event :=
| LogDebug (msg : string)
| LogWarning (log_code : string)
| LogError (log_code : string)
| TrainerTrain.

(** Computations: an outcome and the events emitted, oldest first. *)
Definition M (A : Type) : Type := (exn + A) * list event.

Definition ret {A} (a : A) : M A := (inr a, []).

Definition raise {A} (e : exn) : M A := (inl e, []).

Definition bind {A B} (m : M A) (k : A -> M B) : M B :=
  match m with
  | (inl e, t) => (inl e, t)
  | (inr a, t) => let '(r, t') := k a in (r, t ++ t')
  end.

Definition emit (ev : event) : M unit := (inr tt, [ev]).

Definition outcome {A} (m : M A) : exn + A := fst m.

Definition trace {A} (m : M A) : list event := snd m.

Declare Scope py_scope.
Delimit Scope py_scope with py.
Notation "x <- m ;; k" := (bind m (fun x => k))
  (at level 100, m at next level, right associativity) : py_scope.
Notation "m ;;; k" := (bind m (fun _ => k))
  (at level 100, right associativity) : py_scope.
Open Scope py_scope.

(** [error(log_code, exception)] of [caikit.core.toolkit.error_handler]: the
    code is logged and the exception raised. *)
Definition error {A} (log_code : string) (e : exn) : M A :=
  emit (LogError log_code) ;;; raise e.

(** ** The libraries [fine_tuning.py] is glue over *)

Inductive torch_dtype :=
| float16 | bfloat16 | float32 | float64
| int8 | int16 | int32 | int64 | uint8 | bool_.

#[global] Instance torch_dtype_eq_dec : EqDecision torch_dtype.
Proof. solve_decision. Defined.

(** [transformers], [torch] and the first-party pieces imported by the
    module, as an interface.  The objects are opaque and a library call is
    taken to return: the exceptions of a computation are the ones this module
    raises itself. *)
Class Library := {
  tokenizer : Type;
  tensors : Type;
  nn_module : Type;
  trainer : Type;
  dataset : Type;
  stream : Type;
  tokenize_function : Type;
  pretrained_model : Type;
  resource_class : Type;
  (* toolkit.data_type_utils *)
  get_torch_dtype : option string -> torch_dtype;
  (* AutoConfig.from_pretrained(name).model_type *)
  from_pretrained_model_type : string -> string;
  (* resources.pretrained_model *)
  supported_resources : list resource_class;
  SUPPORTED_MODEL_TYPES : resource_class -> list string;
  bootstrap : resource_class -> string -> torch_dtype -> pretrained_model;
  base_tokenizer : pretrained_model -> tokenizer;
  get_trainer : pretrained_model -> dataset -> gmap string value -> trainer;
  build_task_tokenize_function :
    pretrained_model -> tokenizer -> Z -> Z -> string ->
    tokenize_function * bool;
  (* DataStream and its wrapper *)
  stream_map : stream -> tokenize_function -> stream;
  stream_flatten : stream -> stream;
  SimpleIterableStreamWrapper : stream -> bool -> dataset;
  (* transformers.Trainer *)
  isinstance_Seq2SeqTrainer : trainer -> bool;
  type_repr : trainer -> string;
  trainer_model : trainer -> nn_module;
  trainer_train : trainer -> trainer;
  prediction_step :
    trainer -> nn_module -> tensors -> gmap string value ->
    option tensors * tensors * option tensors;
  (* the tokenizer *)
  tokenizer_call : tokenizer -> string -> string -> tensors;
  batch_decode : tokenizer -> tensors -> bool -> list string;
}.

Section fine_tuning.
Context {lib : Library}.

(** What [train] may be handed as [base_model]. *)
Inductive base_model_arg :=
| BaseStr (name : string)
| BaseResource (r : pretrained_model)
| BaseOther (v : value).

(** What the wrapper may hold as [self.model]: a [Trainer] (of which
    [Seq2SeqTrainer] is a subclass) or any other model object. *)
Inductive model_object :=
| ModelTrainer (t : trainer)
| ModelOther (m : nn_module).

(** [FineTuning.__init__] *)
Record FineTuning := {
  self_tokenizer : tokenizer;
  self_model : model_object;
}.

Record GeneratedTextResult := { generated_text : string }.

(** [fine_tuning.py] lines 129-133: the first supported resource whose
    [SUPPORTED_MODEL_TYPES] has the model type. *)
Fixpoint find_resource (model_type : string) (resources : list resource_class)
  : option resource_class :=
  match resources with
  | [] => None
  | resource :: rest =>
      if bool_decide (model_type ∈ SUPPORTED_MODEL_TYPES resource)
      then Some resource
      else find_resource model_type rest
  end.

(** [error.type_check(log_code, PretrainedModelBase, base_model=base_model)]:
    a [TypeError] unless the object is an instance of the class. *)
Definition type_check_PretrainedModelBase (log_code : string)
    (base_model : base_model_arg) : M pretrained_model :=
  match base_model with
  | BaseResource r => ret r
  | _ => error log_code (TypeError "type check failed: base_model")
  end.

(** Lines 126-145: load the base model. *)
Definition load_base_model (base_model : base_model_arg)
    (dtype : torch_dtype) : M pretrained_model :=
  base_model <-
    match base_model with
    | BaseStr name =>
        let model_type := from_pretrained_model_type name in
        resource_type <-
          match find_resource model_type supported_resources with
          | Some resource => ret resource
          | None =>
              error "<NLP61784225E>"
                (ConfigurationError
                   (model_type +:+ " model type is not supported currently!"))
          end ;;
        emit (LogDebug ("Bootstrapping base resource [" +:+ name +:+ "]")) ;;;
        ret (BaseResource (bootstrap resource_type name dtype))
    | other => ret other
    end ;;
  type_check_PretrainedModelBase "<NLP03221895E>" base_model.

(** [FineTuning._preprocess_function] *)
Definition _preprocess_function (base_model : pretrained_model)
    (train_stream : stream) (tok : tokenizer)
    (max_source_length max_target_length : Z) (shuffle : bool) : dataset :=
  let '(tokenize_fn, requires_unwrapping) :=
    build_task_tokenize_function base_model tok
      max_source_length max_target_length "" in
  let mapped_stream := stream_map train_stream tokenize_fn in
  let mapped_stream :=
    if requires_unwrapping then stream_flatten mapped_stream
    else mapped_stream in
  SimpleIterableStreamWrapper mapped_stream shuffle.

(** Lines 159-169: dtype based processing. *)
Definition dtype_based_params (dtype : torch_dtype) : gmap string value :=
  if decide (dtype = float16) then {[ "fp16" := VBool true ]}
  else if decide (dtype = bfloat16) then {[ "bf16" := VBool true ]}
  else ∅.

(** Lines 180-196: the entries written out in the dictionary display. *)
Definition default_training_args (checkpoint_dir : string)
    (batch_size num_epochs accumulate_steps : Z) (lr : Q)
  : gmap string value :=
  list_to_map
    [ ("output_dir", VStr checkpoint_dir);
      ("per_device_train_batch_size", VInt batch_size);
      ("per_device_eval_batch_size", VInt batch_size);
      ("num_train_epochs", VInt num_epochs);
      ("do_eval", VBool false);
      ("learning_rate", VFloat lr);
      ("weight_decay", VFloat (1 # 100));
      ("save_total_limit", VInt 3);
      ("push_to_hub", VBool false);
      ("no_cuda", VBool false);
      ("remove_unused_columns", VBool false);
      ("dataloader_pin_memory", VBool false);
      ("gradient_accumulation_steps", VInt accumulate_steps);
      ("eval_accumulation_steps", VInt accumulate_steps) ].

(** Lines 180-200: in a dictionary display a later entry replaces an earlier
    one with the same key, so the two unpacked dictionaries come first in the
    left-biased union, the last unpacked one in front. *)
Definition training_args (checkpoint_dir : string)
    (batch_size num_epochs accumulate_steps : Z) (lr : Q)
    (training_arguments : gmap string value) (dtype : torch_dtype)
  : gmap string value :=
  dtype_based_params dtype ∪
  (training_arguments ∪
   default_training_args checkpoint_dir batch_size num_epochs
     accumulate_steps lr).

(** Lines 202-204: [base_model.get_trainer(train_dataset=..., **training_args)];
    a keyword given twice is a [TypeError] of the call itself. *)
Definition call_get_trainer (base_model : pretrained_model)
    (training_dataset : dataset) (args : gmap string value) : M trainer :=
  if bool_decide ("train_dataset" ∈ dom args)
  then raise (TypeError "got multiple values for keyword argument 'train_dataset'")
  else ret (get_trainer base_model training_dataset args).

(** Lines 119-204: everything [train] does before it looks at the number of
    epochs. *)
Definition build_trainer (base_model : base_model_arg) (train_stream : stream)
    (torch_dtype : option string) (max_source_length max_target_length : Z)
    (batch_size num_epochs accumulate_steps : Z) (lr : Q)
    (checkpoint_dir : string) (training_arguments : gmap string value)
  : M (pretrained_model * trainer) :=
  let torch_dtype := get_torch_dtype torch_dtype in
  base_model <- load_base_model base_model torch_dtype ;;
  let training_dataset :=
    _preprocess_function base_model train_stream (base_tokenizer base_model)
      max_source_length max_target_length true in
  let training_args :=
    training_args checkpoint_dir batch_size num_epochs accumulate_steps lr
      training_arguments torch_dtype in
  trainer <- call_get_trainer base_model training_dataset training_args ;;
  ret (base_model, trainer).

(** [FineTuning.train] *)
Definition train (base_model : base_model_arg) (train_stream : stream)
    (torch_dtype : option string) (max_source_length max_target_length : Z)
    (batch_size num_epochs accumulate_steps : Z) (lr : Q)
    (checkpoint_dir : string) (training_arguments : gmap string value)
  : M FineTuning :=
  built <-
    build_trainer base_model train_stream torch_dtype max_source_length
      max_target_length batch_size num_epochs accumulate_steps lr
      checkpoint_dir training_arguments ;;
  let '(base_model, trainer) := built in
  if num_epochs <? 1 then
    emit (LogWarning "<NLP64076114W>") ;;;
    ret {| self_tokenizer := base_tokenizer base_model;
           self_model := ModelTrainer trainer |}
  else
    emit TrainerTrain ;;;
    let trainer := trainer_train trainer in
    ret {| self_tokenizer := base_tokenizer base_model;
           self_model := ModelTrainer trainer |}.

(** [isinstance(model, Trainer)] and [isinstance(model, Seq2SeqTrainer)]. *)
Definition is_Trainer (model : model_object) : bool :=
  match model with
  | ModelTrainer _ => true
  | ModelOther _ => false
  end.

Definition is_Seq2SeqTrainer (model : model_object) : bool :=
  match model with
  | ModelTrainer t => isinstance_Seq2SeqTrainer t
  | ModelOther _ => false
  end.

(** [generated[0]] on the decoded batch. *)
Definition first_item (decoded : list string) : M string :=
  match decoded with
  | s :: _ => ret s
  | [] => raise (IndexError "list index out of range")
  end.

(** [FineTuning.run] *)
Definition run (self : FineTuning) (text : string)
    (preserve_input_text : bool) (max_new_tokens min_new_tokens : Z)
  : M GeneratedTextResult :=
  match self_model self with
  | ModelTrainer model =>
      let tok_tensors := tokenizer_call (self_tokenizer self) text "pt" in
      let generate_args : gmap string value :=
        {[ "prediction_loss_only" := VBool false ]} in
      generate_args <-
        (if isinstance_Seq2SeqTrainer model then
           ret (<["min_new_tokens" := VInt min_new_tokens]>
                  (<["max_new_tokens" := VInt max_new_tokens]> generate_args))
         else
           error "<NLP39984681E>"
             (NotImplementedError
                ("Generation on " +:+ type_repr model +:+
                 " not support                       currently! " +:+
                 "Please try saving and running this model in TGIS."))) ;;
      let '(_, generated_tokens, _) :=
        prediction_step model (trainer_model model) tok_tensors
          generate_args in
      generated_text <-
        first_item (batch_decode (self_tokenizer self) generated_tokens true) ;;
      ret {| generated_text := generated_text |}
  | ModelOther _ =>
      error "<NLP38929392E>"
        (NotImplementedError
           "model prediction on pre-finetuned model currently not supported")
  end.

End fine_tuning.

(** ** The reranker module

    [caikit_nlp/modules/reranker] is imported by the test suite; the
    definitions below give the contract the tests and the specification state
    for [Rerank.run_queries], [Rerank.save] and [Rerank.load]. *)

Abbreviation document := (gmap string value).

(** The cross-encoder behind the module and the host it runs on. *)
Class Encoder := {
  weights : Type;
  (* relevance of a document for a query *)
  predict : weights -> string -> document -> Q;
  (* the directory a path string denotes *)
  target_dir : string -> string;
  (* fetch a model by external reference *)
  resolve_hf_model : string -> option weights;
}.

(** A Python argument that should be a list. *)
Inductive list_arg (A : Type) :=
| ArgList (items : list A)
| ArgScalar (v : value)
| ArgMapping (d : document).
Arguments ArgList {A} items.
Arguments ArgScalar {A} v.
Arguments ArgMapping {A} d.

Record RerankScore := {
  rs_document : document;
  corpus_id : nat;
  score : Q;
}.

Record RerankQueryResult := { scores : list RerankScore }.

Record RerankPrediction := { results : list RerankQueryResult }.

(** Scores are compared as rationals; a result list runs from the highest
    score down. *)
Definition score_ge (a b : RerankScore) : Prop := (score b <= score a)%Q.

#[global] Instance score_ge_dec (a b : RerankScore) : Decision (score_ge a b).
Proof.
  unfold score_ge.
  destruct (Qlt_le_dec (score a) (score b)) as [Hlt | Hle].
  - right. apply Qlt_not_le, Hlt.
  - left. exact Hle.
Defined.

(** Python's [string.whitespace]. *)
Definition is_whitespace (c : Ascii.ascii) : bool :=
  let n := Ascii.nat_of_ascii c in
  (n =? 32)%nat || ((9 <=? n)%nat && (n <=? 13)%nat).

Fixpoint whitespace_only (s : string) : bool :=
  match s with
  | EmptyString => true
  | String c rest => is_whitespace c && whitespace_only rest
  end.

Section reranker.
Context {enc : Encoder}.

(** A module instance: which object it is, and the encoder it holds. *)
Record Rerank := {
  instance_id : nat;
  model_weights : weights;
}.

(** The saved artifact: a config descriptor with the weight files next to
    it, or a reference to a model kept elsewhere. *)
Record ModuleConfig := {
  artifacts : option weights;
  hf_model : option string;
}.

(** A directory of the file system: a saved model, or anything else. *)
Inductive directory :=
| SavedModel (config : ModuleConfig)
| OtherDirectory.

(** The state a save or a load works on: the directories that exist and
    the number of module instances made so far. *)
Record world := {
  dirs : gmap string directory;
  instances : nat;
}.

(** Computations over the world. *)
Definition St (A : Type) : Type := world -> (exn + A) * world.

(** Modelled from the spec: the reranker module is not in the sources.
    "values <=0 or None or exceeding document count default to all
    documents". *)
Definition effective_top_n (top_n : option Z) (n_documents : nat) : nat :=
  match top_n with
  | None => n_documents
  | Some k =>
      if (k <=? 0) || (Z.of_nat n_documents <? k) then n_documents
      else Z.to_nat k
  end.

(** Modelled from the spec: the reranker module is not in the sources.
    One entry per document: "(score, corpus index, original document
    passthrough fields)". *)
Definition score_documents (self : Rerank) (query : string)
    (documents : list document) : list RerankScore :=
  imap (fun i d =>
          {| rs_document := d; corpus_id := i;
             score := predict (model_weights self) query d |})
       documents.

(** Modelled from the spec: the reranker module is not in the sources.
    "result order follows descending score, top_n clamps list length". *)
Definition rerank_query (self : Rerank) (documents : list document)
    (top_n : option Z) (query : string) : RerankQueryResult :=
  {| scores :=
       take (effective_top_n top_n (length documents))
            (merge_sort score_ge (score_documents self query documents)) |}.

(** Modelled from the spec: the reranker module is not in the sources.
    "queries and documents must each be list-like; passing a scalar or a
    mapping raises a type error.  Empty queries or empty documents yield zero
    results without error." *)
Definition run_queries (self : Rerank) (queries : list_arg string)
    (documents : list_arg document) (top_n : option Z) : M RerankPrediction :=
  match queries, documents with
  | ArgList queries, ArgList documents =>
      match queries, documents with
      | [], _ | _, [] => ret {| results := [] |}
      | _, _ =>
          ret {| results := rerank_query self documents top_n <$> queries |}
      end
  | ArgList _, _ => raise (TypeError "documents must be a list")
  | _, _ => raise (TypeError "queries must be a list")
  end.

(** Modelled from the spec: the reranker module is not in the sources.
    "raises a type error for non-string path, a value error for
    empty/whitespace-only path, and a already exists error if the target
    directory exists - save never overwrites." *)
Definition save (self : Rerank) (model_path : value) : St unit :=
  fun w =>
    match model_path with
    | VStr path =>
        if whitespace_only path
        then (inl (ValueError "model_path must not be empty"), w)
        else
          match dirs w !! target_dir path with
          | Some _ => (inl (FileExistsError path), w)
          | None =>
              let config :=
                {| artifacts := Some (model_weights self);
                   hf_model := None |} in
              (inr tt,
               {| dirs := <[target_dir path := SavedModel config]> (dirs w);
                  instances := instances w |})
          end
    | _ => (inl (TypeError "model_path must be a string"), w)
    end.

(** What [load] is given: a config or a path. *)
Inductive load_arg :=
| LoadConfig (config : ModuleConfig)
| LoadPath (path : string).

(** Modelled from the spec: the reranker module is not in the sources.
    "raises a value error when the artifact has neither inline model weights
    nor a resolvable external model reference." *)
Definition load_weights (config : ModuleConfig) : exn + weights :=
  match artifacts config with
  | Some w => inr w
  | None =>
      match hf_model config ≫= resolve_hf_model with
      | Some w => inr w
      | None => inl (ValueError "no artifacts and no hf_model to load")
      end
  end.

(** Modelled from the spec: the reranker module is not in the sources.
    A load reads the config of a saved artifact and makes a new module
    instance from it. *)
Definition load (config_or_path : load_arg) : St Rerank :=
  fun w =>
    let loaded :=
      match config_or_path with
      | LoadConfig config => load_weights config
      | LoadPath path =>
          match dirs w !! target_dir path with
          | Some (SavedModel config) => load_weights config
          | _ => inl (FileNotFoundError path)
          end
      end in
    match loaded with
    | inl e => (inl e, w)
    | inr ws =>
        (inr {| instance_id := instances w; model_weights := ws |},
         {| dirs := dirs w; instances := S (instances w) |})
    end.

End reranker.

(** ** Concrete instances to run the definitions on *)

(** A trainer that remembers its class, its keyword arguments and how many
    epochs it ran. *)
Record demo_trainer := {
  seq2seq : bool;
  kwargs : gmap string value;
  epochs_run : Z;
}.

(** Two resource classes, a causal one ([false]) and a sequence-to-sequence
    one ([true]); a model name is its own model type; a model is the pair of
    its class and name; tensors are the list of texts they encode. *)
Definition demo_library : Library := {|
  tokenizer := string;
  tensors := list string;
  nn_module := string;
  trainer := demo_trainer;
  dataset := list (string * string);
  stream := list (string * string);
  tokenize_function := unit;
  pretrained_model := bool * string;
  resource_class := bool;
  get_torch_dtype := fun name =>
    match name with
    | Some "float16" => float16
    | Some "bfloat16" => bfloat16
    | Some "float64" => float64
    | _ => float32
    end;
  from_pretrained_model_type := fun name => name;
  supported_resources := [false; true];
  SUPPORTED_MODEL_TYPES := fun resource =>
    if resource : bool then ["t5"; "bart"] else ["gpt2"; "bloom"];
  bootstrap := fun resource name _ => (resource, name);
  base_tokenizer := snd;
  get_trainer := fun model _ args =>
    {| seq2seq := fst model; kwargs := args; epochs_run := 0 |};
  build_task_tokenize_function := fun model _ _ _ _ => (tt, fst model);
  stream_map := fun s _ => s;
  stream_flatten := fun s => s;
  SimpleIterableStreamWrapper := fun s _ => s;
  isinstance_Seq2SeqTrainer := seq2seq;
  type_repr := fun t =>
    if seq2seq t then "<class 'transformers.Seq2SeqTrainer'>"
    else "<class 'transformers.Trainer'>";
  trainer_model := fun _ => "model";
  trainer_train := fun t =>
    {| seq2seq := seq2seq t; kwargs := kwargs t;
       epochs_run :=
         match kwargs t !! "num_train_epochs" with
         | Some (VInt n) => n
         | _ => 0
         end |};
  prediction_step := fun _ _ inputs _ => (None, inputs, None);
  tokenizer_call := fun _ text _ => [text];
  batch_decode := fun _ tokens _ => tokens;
|}.

(** An encoder that scores a document by the length of its [text] field plus
    a bias held in the weights; a path denotes itself. *)
Definition demo_encoder : Encoder := {|
  weights := Z;
  predict := fun bias _ d =>
    match d !! "text" with
    | Some (VStr t) => inject_Z (Z.of_nat (String.length t) + bias)
    | _ => inject_Z bias
    end;
  target_dir := fun path => path;
  resolve_hf_model := fun name =>
    if decide (name = "cross-encoder") then Some 0 else None;
|}.

(** [QUERIES] and [DOCS] of [test_reranks.py]. *)
Definition QUERIES : list string := ["Who is foo?"; "Where is the bar?"].

Definition DOCS : list document :=
  [ list_to_map
      [ ("text", VStr "foo"); ("title", VStr "title or whatever");
        ("str_test", VStr "test string"); ("int_test", VInt 1);
        ("float_test", VFloat (111 # 100)); ("score", VInt 99999) ];
    list_to_map [ ("_text", VStr "bar"); ("title", VStr "title 2") ];
    list_to_map [ ("text", VStr "foo and bar") ];
    list_to_map
      [ ("_text", VStr "Where is the bar"); ("another", VStr "something else") ]
  ].

(** The bootstrapped module of the tests and a host on which only the root
    directory exists. *)
Definition BOOTSTRAPPED_MODEL : Rerank (enc := demo_encoder) :=
  @Build_Rerank demo_encoder 0%nat 0.

Definition demo_world : world (enc := demo_encoder) :=
  {| dirs := {[ "/" := OtherDirectory ]}; instances := 1 |}.

(** A wrapper around a plain [Trainer] and one around a [Seq2SeqTrainer]. *)
Definition plain_wrapper : FineTuning (lib := demo_library) :=
  @Build_FineTuning demo_library "gpt2"
    (@ModelTrainer demo_library
       {| seq2seq := false; kwargs := ∅; epochs_run := 0 |}).

Definition seq2seq_wrapper : FineTuning (lib := demo_library) :=
  @Build_FineTuning demo_library "t5"
    (@ModelTrainer demo_library
       {| seq2seq := true; kwargs := ∅; epochs_run := 0 |}).

(** [train] of the demo library on the model [name] for [num_epochs] epochs,
    everything else at the defaults of the signature. *)
Definition demo_train (name : string) (num_epochs : Z)
  : M (FineTuning (lib := demo_library)) :=
  train (lib := demo_library) (BaseStr name) [("in", "out")] None 256 128 8
    num_epochs 32 (2 # 100000) "/tmp" ∅.

(** [train] of the demo library on the model [name] with a dtype name and
    keyword arguments. *)
Definition demo_train_with (name : string) (torch_dtype : option string)
    (num_epochs : Z) (training_arguments : gmap string value)
  : M (FineTuning (lib := demo_library)) :=
  train (lib := demo_library) (BaseStr name) [("in", "out")] torch_dtype 256
    128 8 num_epochs 32 (2 # 100000) "/tmp" training_arguments.

(** The wrapper the demo library returns around an untrained sequence to
    sequence trainer with the given arguments. *)
Definition untrained_wrapper (name : string) (args : gmap string value)
  : FineTuning (lib := demo_library) :=
  @Build_FineTuning demo_library name
    (@ModelTrainer demo_library
       {| seq2seq := true; kwargs := args; epochs_run := 0 |}).

(** For a [top_n], the lengths of the score lists [run_queries] returns for
    [QUERIES] and [DOCS]. *)
Definition score_list_lengths (top_n : option Z) : option (list nat) :=
  match outcome (run_queries BOOTSTRAPPED_MODEL (ArgList QUERIES)
                   (ArgList DOCS) top_n) with
  | inr prediction => Some (length ∘ scores <$> results prediction)
  | inl _ => None
  end.

(** The base models [train] goes on with: a model name whose model type a
    supported resource lists, or a resource instance (lines 126-145). *)
Definition accepted_base_model {lib : Library} (base_model : base_model_arg)
  : Prop :=
  match base_model with
  | BaseStr name =>
      is_Some (find_resource (from_pretrained_model_type name)
                 supported_resources)
  | BaseResource _ => True
  | BaseOther _ => False
  end.

(** Events are compared to count them in a trace. *)
#[global] Instance event_eq_dec : EqDecision event.
Proof. solve_decision. Defined.

(** The keys of the dictionary display of lines 180-196, in source order. *)
Definition default_training_arg_names : list string :=
  [ "output_dir"; "per_device_train_batch_size"; "per_device_eval_batch_size";
    "num_train_epochs"; "do_eval"; "learning_rate"; "weight_decay";
    "save_total_limit"; "push_to_hub"; "no_cuda"; "remove_unused_columns";
    "dataloader_pin_memory"; "gradient_accumulation_steps";
    "eval_accumulation_steps" ].

(** The keyword arguments [run] hands to [prediction_step] of a
    [Seq2SeqTrainer] (lines 266-271). *)
Definition seq2seq_generate_args (max_new_tokens min_new_tokens : Z)
  : gmap string value :=
  <["min_new_tokens" := VInt min_new_tokens]>
    (<["max_new_tokens" := VInt max_new_tokens]>
       {[ "prediction_loss_only" := VBool false ]}).

(** * Properties *)

(** ** The computation monad *)

Section monad_facts.
Context {A B : Type}.
Implicit Types (m : M A) (k : A -> M B).

Lemma outcome_bind_inl m k e :
  outcome m = inl e -> outcome (bind m k) = inl e.
Proof. destruct m as [[e' | a] t]; simpl; congruence. Qed.

Lemma outcome_bind_inr m k a :
  outcome m = inr a -> outcome (bind m k) = outcome (k a).
Proof.
  destruct m as [[e | a'] t]; simpl; [congruence |].
  intros [= ->]. by destruct (k a).
Qed.

Lemma trace_bind_inl m k e :
  outcome m = inl e -> trace (bind m k) = trace m.
Proof. destruct m as [[e' | a] t]; simpl; congruence. Qed.

Lemma trace_bind_inr m k a :
  outcome m = inr a -> trace (bind m k) = trace m ++ trace (k a).
Proof.
  destruct m as [[e | a'] t]; simpl; [congruence |].
  intros [= ->]. by destruct (k a).
Qed.

Lemma trace_bind_silent m k ev :
  ev ∉ trace m -> (forall a, ev ∉ trace (k a)) -> ev ∉ trace (bind m k).
Proof.
  intros Hm Hk. destruct (outcome m) as [e | a] eqn:Hout.
  - by rewrite (trace_bind_inl _ _ _ Hout).
  - rewrite (trace_bind_inr _ _ _ Hout), elem_of_app. intros [? | ?]; [done |].
    by eapply Hk.
Qed.

End monad_facts.

(** ** Fine-tuning *)

Section fine_tuning_facts.
Context {lib : Library}.

Lemma dtype_based_params_float16 :
  dtype_based_params float16 = {[ "fp16" := VBool true ]}.
Proof. reflexivity. Qed.

Lemma dtype_based_params_bfloat16 :
  dtype_based_params bfloat16 = {[ "bf16" := VBool true ]}.
Proof. reflexivity. Qed.

Lemma dtype_based_params_other dtype :
  dtype ≠ float16 -> dtype ≠ bfloat16 -> dtype_based_params dtype = ∅.
Proof. intros ??. unfold dtype_based_params. by repeat case_decide. Qed.

Lemma training_args_lookup checkpoint_dir batch_size num_epochs
    accumulate_steps lr (training_arguments : gmap string value) dtype key :
  training_args checkpoint_dir batch_size num_epochs accumulate_steps lr
    training_arguments dtype !! key =
  match dtype_based_params dtype !! key with
  | Some v => Some v
  | None =>
      match training_arguments !! key with
      | Some v => Some v
      | None =>
          default_training_args checkpoint_dir batch_size num_epochs
            accumulate_steps lr !! key
      end
  end.
Proof.
  unfold training_args. rewrite !lookup_union.
  destruct (dtype_based_params dtype !! key), (training_arguments !! key),
    (default_training_args _ _ _ _ _ !! key); reflexivity.
Qed.

(** C10: [run] gives the same outcome and leaves the same trace whether
    [preserve_input_text] is set or not. *)
Theorem run_ignores_preserve_input_text (self : FineTuning) (text : string)
    (max_new_tokens min_new_tokens : Z) :
  run self text true max_new_tokens min_new_tokens =
  run self text false max_new_tokens min_new_tokens.
Proof. unfold run. by destruct (self_model self). Qed.

Lemma run_seq2seq (self : FineTuning) text preserve_input_text
    max_new_tokens min_new_tokens model :
  self_model self = ModelTrainer model ->
  isinstance_Seq2SeqTrainer model = true ->
  run self text preserve_input_text max_new_tokens min_new_tokens =
  let generate_args : gmap string value :=
    <["min_new_tokens" := VInt min_new_tokens]>
      (<["max_new_tokens" := VInt max_new_tokens]>
         {[ "prediction_loss_only" := VBool false ]}) in
  let tok_tensors := tokenizer_call (self_tokenizer self) text "pt" in
  generated_text <-
    first_item
      (batch_decode (self_tokenizer self)
         (prediction_step model (trainer_model model) tok_tensors
            generate_args).1.2 true) ;;
  ret {| generated_text := generated_text |}.
Proof.
  intros Hmodel Hclass. unfold run. rewrite Hmodel, Hclass. cbn.
  destruct (prediction_step _ _ _ _) as [[? generated_tokens] ?]. cbn.
  by destruct (first_item _) as [[e | s] t].
Qed.

Lemma run_not_seq2seq (self : FineTuning) text preserve_input_text
    max_new_tokens min_new_tokens :
  is_Seq2SeqTrainer (self_model self) = false ->
  exists log_code msg,
    run self text preserve_input_text max_new_tokens min_new_tokens =
    (inl (NotImplementedError msg), [LogError log_code]).
Proof.
  unfold run, is_Seq2SeqTrainer.
  destruct (self_model self) as [model | other]; [intros -> |]; cbn; eauto.
Qed.

(** C3: on a wrapper whose model is not a [Seq2SeqTrainer], a plain
    [Trainer] or no trainer at all, [run] raises [NotImplementedError]; so a
    [run] that returns a generated text was given a [Seq2SeqTrainer]. *)
Theorem run_requires_seq2seq_trainer (self : FineTuning) (text : string)
    (preserve_input_text : bool) (max_new_tokens min_new_tokens : Z) :
  let result :=
    run self text preserve_input_text max_new_tokens min_new_tokens in
  (is_Seq2SeqTrainer (self_model self) = false ->
     exists msg, outcome result = inl (NotImplementedError msg)) /\
  (forall generated,
     outcome result = inr generated ->
     is_Seq2SeqTrainer (self_model self) = true).
Proof.
  intros result. subst result. split.
  - intros Hclass.
    destruct (run_not_seq2seq self text preserve_input_text max_new_tokens
                min_new_tokens Hclass) as (log_code & msg & ->).
    by exists msg.
  - intros generated Hout.
    destruct (is_Seq2SeqTrainer (self_model self)) eqn:Hclass; [done |].
    destruct (run_not_seq2seq self text preserve_input_text max_new_tokens
                min_new_tokens Hclass) as (log_code & msg & Hrun).
    by rewrite Hrun in Hout.
Qed.

(** [Seq2SeqTrainer] is a subclass of [Trainer]. *)
Lemma is_Seq2SeqTrainer_is_Trainer (model : model_object) :
  is_Seq2SeqTrainer model = true -> is_Trainer model = true.
Proof. by destruct model. Qed.

(** The loop over [supported_resources] stops at the first class that lists
    the model type. *)
Lemma find_resource_Some model_type resources resource :
  find_resource model_type resources = Some resource <->
  exists before after,
    resources = before ++ resource :: after /\
    model_type ∈ SUPPORTED_MODEL_TYPES resource /\
    Forall (fun r => model_type ∉ SUPPORTED_MODEL_TYPES r) before.
Proof.
  induction resources as [| r rest IH]; cbn.
  - split; [done |]. intros (before & after & Heq & _). by destruct before.
  - case_bool_decide as Hr.
    + split.
      * intros [= <-]. by exists [], rest.
      * intros (before & after & Heq & Hin & Hbefore).
        destruct before as [| r' before]; cbn in Heq.
        -- by injection Heq as -> _.
        -- injection Heq as -> _. by apply Forall_cons_1 in Hbefore as [? _].
    + rewrite IH. split.
      * intros (before & after & -> & Hin & Hbefore).
        exists (r :: before), after. by repeat constructor.
      * intros (before & after & Heq & Hin & Hbefore).
        destruct before as [| r' before]; cbn in Heq.
        -- injection Heq as -> _. done.
        -- injection Heq as -> ->. apply Forall_cons_1 in Hbefore as [_ ?].
           by exists before, after.
Qed.

Lemma find_resource_None model_type resources :
  find_resource model_type resources = None <->
  Forall (fun r => model_type ∉ SUPPORTED_MODEL_TYPES r) resources.
Proof.
  induction resources as [| r rest IH]; cbn; [done |].
  case_bool_decide as Hr.
  - split; [done |]. intros [? _]%Forall_cons_1. done.
  - rewrite IH, Forall_cons. split; [by split | by intros [_ ?]].
Qed.

(** A model name whose type no supported resource lists is rejected, and so
    is an object that is neither a name nor a resource: [train] raises for
    them whatever the number of epochs. *)
Lemma load_base_model_unsupported name dtype :
  Forall (fun r => from_pretrained_model_type name ∉ SUPPORTED_MODEL_TYPES r)
         supported_resources ->
  load_base_model (BaseStr name) dtype =
  (inl (ConfigurationError
          (from_pretrained_model_type name +:+
           " model type is not supported currently!")),
   [LogError "<NLP61784225E>"]).
Proof.
  intros Hnone%find_resource_None. unfold load_base_model.
  by rewrite Hnone.
Qed.

Lemma load_base_model_type_error v dtype :
  exists msg,
    load_base_model (BaseOther v) dtype =
    (inl (TypeError msg), [LogError "<NLP03221895E>"]).
Proof. by eexists. Qed.

Lemma train_rejects_base_model base_model train_stream torch_dtype
    max_source_length max_target_length batch_size num_epochs
    accumulate_steps lr checkpoint_dir training_arguments e :
  outcome (load_base_model base_model (get_torch_dtype torch_dtype)) = inl e ->
  outcome (train base_model train_stream torch_dtype max_source_length
             max_target_length batch_size num_epochs accumulate_steps lr
             checkpoint_dir training_arguments) = inl e.
Proof.
  intros Hload. unfold train, build_trainer.
  apply outcome_bind_inl. by apply outcome_bind_inl.
Qed.

Lemma load_base_model_silent base_model dtype :
  TrainerTrain ∉ trace (load_base_model base_model dtype).
Proof.
  unfold load_base_model.
  apply trace_bind_silent.
  - destruct base_model as [name | r | v]; cbn; try apply not_elem_of_nil.
    apply trace_bind_silent.
    + destruct (find_resource _ _); cbn; [apply not_elem_of_nil |].
      rewrite list_elem_of_singleton. congruence.
    + intros resource. cbn. rewrite list_elem_of_singleton. congruence.
  - intros [name | r | v]; cbn; try apply not_elem_of_nil;
      rewrite list_elem_of_singleton; congruence.
Qed.

Lemma call_get_trainer_silent base_model training_dataset args :
  trace (call_get_trainer base_model training_dataset args) = [].
Proof. unfold call_get_trainer. by case_bool_decide. Qed.

Lemma build_trainer_silent base_model train_stream torch_dtype
    max_source_length max_target_length batch_size num_epochs
    accumulate_steps lr checkpoint_dir training_arguments :
  TrainerTrain ∉
  trace (build_trainer base_model train_stream torch_dtype max_source_length
           max_target_length batch_size num_epochs accumulate_steps lr
           checkpoint_dir training_arguments).
Proof.
  unfold build_trainer. apply trace_bind_silent.
  - apply load_base_model_silent.
  - intros resource. apply trace_bind_silent.
    + rewrite call_get_trainer_silent. apply not_elem_of_nil.
    + intros t. apply not_elem_of_nil.
Qed.

Lemma default_training_args_train_dataset checkpoint_dir batch_size
    num_epochs accumulate_steps lr :
  default_training_args checkpoint_dir batch_size num_epochs accumulate_steps
    lr !! "train_dataset" = None.
Proof. reflexivity. Qed.

Lemma dtype_based_params_train_dataset dtype :
  dtype_based_params dtype !! "train_dataset" = None.
Proof. by destruct dtype. Qed.

(** The checks a call has to pass for the trainer to be built: a model name
    of a supported type or a resource instance, and no [train_dataset] among
    the keyword arguments. *)
Lemma build_trainer_returns base_model train_stream torch_dtype
    max_source_length max_target_length batch_size num_epochs
    accumulate_steps lr checkpoint_dir
    (training_arguments : gmap string value) :
  match base_model with
  | BaseStr name =>
      is_Some (find_resource (from_pretrained_model_type name)
                 supported_resources)
  | BaseResource _ => True
  | BaseOther _ => False
  end ->
  training_arguments !! "train_dataset" = None ->
  exists resource t,
    outcome (build_trainer base_model train_stream torch_dtype
               max_source_length max_target_length batch_size num_epochs
               accumulate_steps lr checkpoint_dir training_arguments) =
    inr (resource, t).
Proof.
  intros Hbase Hkw. unfold build_trainer.
  assert (exists resource,
             outcome (load_base_model base_model
                        (get_torch_dtype torch_dtype)) = inr resource)
    as [resource Hload].
  { unfold load_base_model.
    destruct base_model as [name | r | v]; [| by eexists | done].
    destruct Hbase as [rc ->]. by eexists. }
  rewrite (outcome_bind_inr _ _ _ Hload).
  unfold call_get_trainer. rewrite bool_decide_eq_false_2.
  - by eexists _, _.
  - rewrite elem_of_dom, training_args_lookup, Hkw,
      dtype_based_params_train_dataset, default_training_args_train_dataset.
    by intros [? ?].
Qed.

(** With one epoch or more the loop runs once and the wrapper holds the
    trainer as the loop left it. *)
Lemma train_at_least_one_epoch base_model train_stream torch_dtype
    max_source_length max_target_length batch_size num_epochs
    accumulate_steps lr checkpoint_dir training_arguments resource t :
  1 <= num_epochs ->
  let built :=
    build_trainer base_model train_stream torch_dtype max_source_length
      max_target_length batch_size num_epochs accumulate_steps lr
      checkpoint_dir training_arguments in
  let result :=
    train base_model train_stream torch_dtype max_source_length
      max_target_length batch_size num_epochs accumulate_steps lr
      checkpoint_dir training_arguments in
  outcome built = inr (resource, t) ->
  outcome result =
    inr {| self_tokenizer := base_tokenizer resource;
           self_model := ModelTrainer (trainer_train t) |} /\
  trace result = trace built ++ [TrainerTrain].
Proof.
  intros Hepochs built result Hbuilt. subst built result. unfold train.
  apply Z.ltb_ge in Hepochs.
  rewrite (outcome_bind_inr _ _ _ Hbuilt), (trace_bind_inr _ _ _ Hbuilt).
  by rewrite Hepochs.
Qed.

End fine_tuning_facts.

(** ** Reranker *)

#[global] Instance score_ge_trans : Transitive score_ge.
Proof. intros a b c Hab Hbc. unfold score_ge in *. by eapply Qle_trans. Qed.

#[global] Instance score_ge_total : Total score_ge.
Proof.
  intros a b. unfold score_ge.
  destruct (Qlt_le_dec (score a) (score b)) as [Hlt | Hle].
  - right. by apply Qlt_le_weak.
  - by left.
Qed.

Section reranker_facts.
Context {enc : Encoder}.
Implicit Types (self : Rerank) (documents : list document).

Lemma effective_top_n_default top_n (n : nat) :
  match top_n with
  | None => True
  | Some k => k <= 0 \/ Z.of_nat n < k
  end ->
  effective_top_n top_n n = n.
Proof.
  destruct top_n as [k |]; [| done]. intros Hk. unfold effective_top_n.
  destruct (k <=? 0) eqn:Hle; [done |].
  destruct (Z.of_nat n <? k) eqn:Hlt; [done |]. lia.
Qed.

Lemma effective_top_n_in_range k (n : nat) :
  1 <= k <= Z.of_nat n -> effective_top_n (Some k) n = Z.to_nat k.
Proof.
  intros Hk. unfold effective_top_n.
  destruct (k <=? 0) eqn:Hle; [lia |].
  destruct (Z.of_nat n <? k) eqn:Hlt; [lia | done].
Qed.

Lemma effective_top_n_bounds top_n (n : nat) :
  (0 < n)%nat -> (1 <= effective_top_n top_n n <= n)%nat.
Proof.
  intros Hn. destruct top_n as [k |]; cbn; [| lia].
  destruct (k <=? 0) eqn:Hle; [cbn; lia |].
  destruct (Z.of_nat n <? k) eqn:Hlt; cbn; lia.
Qed.

Lemma length_rerank_query self documents top_n query :
  length (scores (rerank_query self documents top_n query)) =
  Nat.min (effective_top_n top_n (length documents)) (length documents).
Proof.
  cbn. rewrite length_take.
  rewrite (Permutation_length (merge_sort_Permutation score_ge _)).
  unfold score_documents. by rewrite length_imap.
Qed.

Lemma rerank_query_entry self documents top_n query entry :
  entry ∈ scores (rerank_query self documents top_n query) ->
  documents !! corpus_id entry = Some (rs_document entry).
Proof.
  cbn. intros Hin. apply subseteq_take in Hin.
  rewrite merge_sort_Permutation in Hin. unfold score_documents in Hin.
  apply elem_of_lookup_imap in Hin as (i & d & -> & Hd). exact Hd.
Qed.

Lemma rerank_query_sorted self documents top_n query :
  StronglySorted score_ge (scores (rerank_query self documents top_n query)).
Proof.
  cbn. eapply StronglySorted_app_1_l. rewrite take_drop.
  apply StronglySorted_merge_sort; apply _.
Qed.

Lemma run_queries_lists self (queries : list string) documents top_n :
  run_queries self (ArgList queries) (ArgList documents) top_n =
  ret {| results :=
           if decide (queries = [] \/ documents = []) then []
           else rerank_query self documents top_n <$> queries |}.
Proof.
  unfold run_queries.
  destruct queries, documents;
    destruct (decide _) as [[? | ?] | Hnonempty]; try done;
    exfalso; apply Hnonempty; auto.
Qed.

(** C6: with an empty list of queries or an empty list of documents,
    [run_queries] returns a prediction with no per-query result. *)
Theorem run_queries_empty self (queries : list string) documents top_n :
  queries = [] \/ documents = [] ->
  exists prediction,
    outcome (run_queries self (ArgList queries) (ArgList documents) top_n) =
      inr prediction /\
    results prediction = [].
Proof.
  intros Hempty. rewrite run_queries_lists. eexists. split; [done |].
  cbn. by destruct (decide _).
Qed.

(** C1: with non-empty queries and documents there is one result per query,
    and each score list has [min (max t 1) (len documents)] entries, where [t]
    is [top_n] when [1 <= top_n <= len documents] and [len documents] when
    [top_n] is [None], zero, negative or larger than that. *)
Theorem run_queries_top_n self (queries : list string) documents top_n :
  queries ≠ [] -> documents ≠ [] ->
  let n := length documents in
  let t := effective_top_n top_n n in
  (exists prediction,
     outcome (run_queries self (ArgList queries) (ArgList documents) top_n) =
       inr prediction /\
     length (results prediction) = length queries /\
     Forall (fun result =>
               length (scores result) = Nat.min (Nat.max t 1) n)
            (results prediction)) /\
  (match top_n with
   | None => t = n
   | Some k =>
       (k <= 0 \/ Z.of_nat n < k -> t = n) /\
       (1 <= k <= Z.of_nat n -> t = Z.to_nat k)
   end).
Proof.
  intros Hqueries Hdocuments n t. subst n t. split.
  - rewrite run_queries_lists. eexists. split; [done |]. cbn.
    destruct (decide _) as [[? | ?] | _]; [done | done |].
    rewrite length_fmap. split; [done |].
    apply Forall_fmap, Forall_forall. intros query _. cbn [compose].
    rewrite length_rerank_query.
    assert (0 < length documents)%nat by (destruct documents; cbn; [done | lia]).
    pose proof (effective_top_n_bounds top_n (length documents)). lia.
  - destruct top_n as [k |]; [split |].
    + intros Hk. by apply effective_top_n_default.
    + apply effective_top_n_in_range.
    + done.
Qed.

(** C5: in every result of a successful [run_queries], each entry carries
    the input document found at its [corpus_id], so every key of that document
    reads the same value from the entry, and the entries run from the highest
    score down. *)
Theorem run_queries_passthrough_sorted self (queries : list_arg string)
    (documents : list_arg document) top_n prediction :
  outcome (run_queries self queries documents top_n) = inr prediction ->
  exists docs,
    documents = ArgList docs /\
    Forall (fun result =>
              Forall (fun entry =>
                        docs !! corpus_id entry = Some (rs_document entry) /\
                        forall d key,
                          docs !! corpus_id entry = Some d ->
                          rs_document entry !! key = d !! key)
                     (scores result) /\
              StronglySorted score_ge (scores result))
           (results prediction).
Proof.
  destruct queries as [qs | |], documents as [ds | |]; try done.
  rewrite run_queries_lists. cbn. intros [= <-]. exists ds. split; [done |].
  cbn. destruct (decide _) as [_ | _]; [done |].
  apply Forall_fmap, Forall_forall. intros query _. cbn [compose]. split.
  - apply Forall_forall. intros entry Hentry.
    apply rerank_query_entry in Hentry. split; [done |].
    intros d key Hd. congruence.
  - apply rerank_query_sorted.
Qed.

Lemma save_keeps_directories self model_path (w : world) dir content :
  dirs w !! dir = Some content ->
  dirs (save self model_path w).2 !! dir = Some content.
Proof.
  intros Hdir. unfold save.
  destruct model_path as [| b | z | q | path]; try done.
  destruct (whitespace_only path); [done |].
  destruct (dirs w !! target_dir path) as [old |] eqn:Htarget; [done |].
  cbn. rewrite lookup_insert_ne; [done |]. congruence.
Qed.

Lemma save_raises_unchanged self model_path (w : world) e :
  (save self model_path w).1 = inl e -> (save self model_path w).2 = w.
Proof.
  unfold save.
  destruct model_path as [| b | z | q | path]; try done.
  destruct (whitespace_only path); [done |].
  by destruct (dirs w !! target_dir path).
Qed.

(** C4: [save] raises a [TypeError] for a path that is not a string, a
    [ValueError] for an empty or whitespace-only string and a
    [FileExistsError] when the target directory exists; in each of these cases
    the file system is left as it was, and after any save every directory that
    existed before holds what it held. *)
Theorem save_checks self (model_path : value) (w : world) :
  let result := save self model_path w in
  ((forall path, model_path ≠ VStr path) ->
     exists msg, result = (inl (TypeError msg), w)) /\
  (forall path,
     model_path = VStr path -> whitespace_only path = true ->
     exists msg, result = (inl (ValueError msg), w)) /\
  (forall path,
     model_path = VStr path -> whitespace_only path = false ->
     is_Some (dirs w !! target_dir path) ->
     exists msg, result = (inl (FileExistsError msg), w)) /\
  (forall dir content,
     dirs w !! dir = Some content -> dirs result.2 !! dir = Some content).
Proof.
  intros result. subst result. repeat split.
  - intros Hpath. unfold save.
    destruct model_path as [| b | z | q | path]; eauto.
    by destruct (Hpath path).
  - intros path -> Hblank. unfold save. rewrite Hblank. eauto.
  - intros path -> Hblank [old Hold]. unfold save. rewrite Hblank, Hold. eauto.
  - intros dir content. apply save_keeps_directories.
Qed.

Lemma save_fresh self path (w : world) :
  whitespace_only path = false ->
  dirs w !! target_dir path = None ->
  save self (VStr path) w =
  (inr tt,
   {| dirs :=
        <[target_dir path :=
            SavedModel {| artifacts := Some (model_weights self);
                          hf_model := None |}]> (dirs w);
      instances := instances w |}).
Proof. intros Hblank Hfree. unfold save. by rewrite Hblank, Hfree. Qed.

Lemma load_saved path (w : world) ws reference :
  dirs w !! target_dir path =
    Some (SavedModel {| artifacts := Some ws; hf_model := reference |}) ->
  load (LoadPath path) w =
  (inr {| instance_id := instances w; model_weights := ws |},
   {| dirs := dirs w; instances := S (instances w) |}).
Proof. intros Hdir. unfold load. by rewrite Hdir. Qed.

Lemma run_queries_same_weights self other (queries : list_arg string)
    (documents : list_arg document) top_n :
  model_weights other = model_weights self ->
  run_queries other queries documents top_n =
  run_queries self queries documents top_n.
Proof.
  intros Hweights. unfold run_queries, rerank_query, score_documents.
  by rewrite Hweights.
Qed.

(** C7: a save to a path whose directory does not exist succeeds; a load of
    that path then returns a new instance, distinct from the saved one, that
    holds the same encoder, so [run_queries] on lists returns with it exactly
    what it returns with the saved one; and a second save to the path raises
    [FileExistsError]. *)
Theorem save_load_roundtrip self (path : string) (w : world) :
  whitespace_only path = false ->
  dirs w !! target_dir path = None ->
  (instance_id self < instances w)%nat ->
  let saved := save self (VStr path) w in
  let loaded := load (LoadPath path) saved.2 in
  saved.1 = inr tt /\
  (exists new_model,
     loaded.1 = inr new_model /\
     instance_id new_model ≠ instance_id self /\
     model_weights new_model = model_weights self /\
     (forall queries (documents : list_arg document) top_n,
        run_queries new_model queries documents top_n =
        run_queries self queries documents top_n) /\
     (forall (queries : list string) (documents : list document) top_n,
        exists prediction,
          outcome (run_queries new_model (ArgList queries)
                     (ArgList documents) top_n) = inr prediction)) /\
  (exists msg, (save self (VStr path) saved.2).1 = inl (FileExistsError msg)) /\
  (exists msg, (save self (VStr path) loaded.2).1 = inl (FileExistsError msg)).
Proof.
  intros Hblank Hfree Hid saved loaded. subst saved loaded.
  rewrite (save_fresh _ _ _ Hblank Hfree). cbn [fst snd].
  erewrite load_saved by (cbn; apply lookup_insert_eq). cbn [fst snd].
  split; [done |]. split; [| split].
  - eexists. split; [done |]. split; [cbn; lia |]. split; [done |]. split.
    + intros. by apply run_queries_same_weights.
    + intros queries documents top_n. rewrite run_queries_lists. by eexists.
  - unfold save. cbn. rewrite Hblank, lookup_insert_eq. by eexists.
  - unfold save. cbn. rewrite Hblank, lookup_insert_eq. by eexists.
Qed.

End reranker_facts.

(** ** Further properties of the fine-tuning module *)

Section fine_tuning_more.
Context {lib : Library}.

(** X1: the loop over the supported resources picks the first class, in list
    order, whose [SUPPORTED_MODEL_TYPES] has the model type, and finds none
    exactly when no class lists it. *)
Theorem find_resource_first_match model_type resources :
  match find_resource model_type resources with
  | Some resource =>
      exists before after,
        resources = before ++ resource :: after /\
        model_type ∈ SUPPORTED_MODEL_TYPES resource /\
        Forall (fun r => model_type ∉ SUPPORTED_MODEL_TYPES r) before
  | None => Forall (fun r => model_type ∉ SUPPORTED_MODEL_TYPES r) resources
  end.
Proof.
  destruct (find_resource model_type resources) as [resource |] eqn:Hfind.
  - by apply find_resource_Some.
  - by apply find_resource_None.
Qed.

(** X2: a model name whose model type no supported resource lists makes
    [train] raise the unsupported-model error under log code NLP61784225E,
    whatever the other arguments; nothing is bootstrapped or trained: that log
    line is the whole trace. *)
Theorem train_unsupported_model_type name train_stream torch_dtype
    max_source_length max_target_length batch_size num_epochs
    accumulate_steps lr checkpoint_dir training_arguments :
  Forall (fun r => from_pretrained_model_type name ∉ SUPPORTED_MODEL_TYPES r)
         supported_resources ->
  train (BaseStr name) train_stream torch_dtype max_source_length
    max_target_length batch_size num_epochs accumulate_steps lr
    checkpoint_dir training_arguments =
  (inl (ConfigurationError
          (from_pretrained_model_type name +:+
           " model type is not supported currently!")),
   [LogError "<NLP61784225E>"]).
Proof.
  intros Hnone. unfold train, build_trainer.
  by rewrite (load_base_model_unsupported _ _ Hnone).
Qed.

(** X3: a base model that is neither a name nor a resource instance fails the
    type check: [train] raises [TypeError] under log code NLP03221895E before
    anything else happens. *)
Theorem train_base_model_type_error v train_stream torch_dtype
    max_source_length max_target_length batch_size num_epochs
    accumulate_steps lr checkpoint_dir training_arguments :
  exists msg,
    train (BaseOther v) train_stream torch_dtype max_source_length
      max_target_length batch_size num_epochs accumulate_steps lr
      checkpoint_dir training_arguments =
    (inl (TypeError msg), [LogError "<NLP03221895E>"]).
Proof. by eexists. Qed.

(** X4: a model name of a supported type is bootstrapped by the first
    resource class that lists its type, with the dtype handed in, and the
    bootstrap is announced by one debug line. *)
Theorem load_base_model_bootstraps_first name dtype before resource after :
  supported_resources = before ++ resource :: after ->
  from_pretrained_model_type name ∈ SUPPORTED_MODEL_TYPES resource ->
  Forall (fun r => from_pretrained_model_type name ∉ SUPPORTED_MODEL_TYPES r)
         before ->
  load_base_model (BaseStr name) dtype =
  (inr (bootstrap resource name dtype),
   [LogDebug ("Bootstrapping base resource [" +:+ name +:+ "]")]).
Proof.
  intros Hlist Hin Hbefore. unfold load_base_model.
  assert (find_resource (from_pretrained_model_type name) supported_resources
          = Some resource) as ->; [| done].
  apply find_resource_Some. by exists before, after.
Qed.

(** What a built trainer was made from. *)
Lemma build_trainer_inr base_model train_stream torch_dtype
    max_source_length max_target_length batch_size num_epochs
    accumulate_steps lr checkpoint_dir
    (training_arguments : gmap string value) resource t :
  outcome (build_trainer base_model train_stream torch_dtype
             max_source_length max_target_length batch_size num_epochs
             accumulate_steps lr checkpoint_dir training_arguments) =
    inr (resource, t) ->
  outcome (load_base_model base_model (get_torch_dtype torch_dtype)) =
    inr resource /\
  training_arguments !! "train_dataset" = None /\
  t = get_trainer resource
        (_preprocess_function resource train_stream (base_tokenizer resource)
           max_source_length max_target_length true)
        (training_args checkpoint_dir batch_size num_epochs accumulate_steps
           lr training_arguments (get_torch_dtype torch_dtype)) /\
  trace (build_trainer base_model train_stream torch_dtype
           max_source_length max_target_length batch_size num_epochs
           accumulate_steps lr checkpoint_dir training_arguments) =
    trace (load_base_model base_model (get_torch_dtype torch_dtype)).
Proof.
  unfold build_trainer.
  destruct (load_base_model base_model (get_torch_dtype torch_dtype))
    as [[e | r] events] eqn:Hload; cbn; [done |].
  unfold call_get_trainer. case_bool_decide as Hkw; cbn; [done |].
  intros [= <- <-]. rewrite app_nil_r. repeat split.
  rewrite elem_of_dom, training_args_lookup in Hkw.
  destruct (training_arguments !! "train_dataset") eqn:Hcaller; [| done].
  exfalso. apply Hkw. rewrite dtype_based_params_train_dataset. by eexists.
Qed.

Lemma train_inr base_model train_stream torch_dtype
    max_source_length max_target_length batch_size num_epochs
    accumulate_steps lr checkpoint_dir training_arguments wrapper :
  outcome (train base_model train_stream torch_dtype max_source_length
             max_target_length batch_size num_epochs accumulate_steps lr
             checkpoint_dir training_arguments) = inr wrapper ->
  exists resource t,
    outcome (build_trainer base_model train_stream torch_dtype
               max_source_length max_target_length batch_size num_epochs
               accumulate_steps lr checkpoint_dir training_arguments) =
      inr (resource, t) /\
    wrapper =
      {| self_tokenizer := base_tokenizer resource;
         self_model :=
           ModelTrainer (if num_epochs <? 1 then t else trainer_train t) |}.
Proof.
  unfold train.
  destruct (build_trainer _ _ _ _ _ _ _ _ _ _ _) as [[e | [resource t]] events];
    cbn; [done |].
  intros Hwrapper. exists resource, t. split; [done |].
  destruct (num_epochs <? 1); cbn in Hwrapper; by injection Hwrapper as <-.
Qed.

(** A call of [train], by its outcome: a returned wrapper was made from the
    loaded base model by [get_trainer] on the merged arguments, and a raised
    error came up before any trainer was built. *)
Lemma train_cases base_model train_stream torch_dtype
    max_source_length max_target_length batch_size num_epochs
    accumulate_steps lr checkpoint_dir
    (training_arguments : gmap string value) :
  match outcome (train base_model train_stream torch_dtype max_source_length
                   max_target_length batch_size num_epochs accumulate_steps
                   lr checkpoint_dir training_arguments) with
  | inr wrapper =>
      exists resource,
        outcome (load_base_model base_model (get_torch_dtype torch_dtype)) =
          inr resource /\
        training_arguments !! "train_dataset" = None /\
        let built :=
          get_trainer resource
            (_preprocess_function resource train_stream
               (base_tokenizer resource) max_source_length max_target_length
               true)
            (training_args checkpoint_dir batch_size num_epochs
               accumulate_steps lr training_arguments
               (get_torch_dtype torch_dtype)) in
        wrapper =
          {| self_tokenizer := base_tokenizer resource;
             self_model :=
               ModelTrainer
                 (if num_epochs <? 1 then built else trainer_train built) |}
  | inl e =>
      outcome (build_trainer base_model train_stream torch_dtype
                 max_source_length max_target_length batch_size num_epochs
                 accumulate_steps lr checkpoint_dir training_arguments) =
      inl e
  end.
Proof.
  destruct (outcome (train _ _ _ _ _ _ _ _ _ _ _)) as [e | wrapper] eqn:Hout.
  - unfold train in Hout.
    destruct (build_trainer _ _ _ _ _ _ _ _ _ _ _)
      as [[e' | [resource t]] events]; cbn in *; [congruence |].
    by destruct (num_epochs <? 1).
  - apply train_inr in Hout as (resource & t & Hbuilt & ->).
    apply build_trainer_inr in Hbuilt as (Hload & Hkw & -> & _).
    by exists resource.
Qed.

(** The base model is loaded exactly when it is accepted. *)
Lemma load_base_model_accepted base_model dtype :
  accepted_base_model base_model <->
  exists resource, outcome (load_base_model base_model dtype) = inr resource.
Proof.
  unfold accepted_base_model, load_base_model.
  destruct base_model as [name | r | v]; cbn.
  - destruct (find_resource _ _) as [resource |]; cbn.
    + split; [by eexists | by eexists].
    + split; [by intros [? ?] | by intros [? ?]].
  - split; [by eexists | done].
  - split; [done | by intros [? ?]].
Qed.

Lemma call_get_trainer_keyword (resource : pretrained_model)
    (training_dataset : dataset) checkpoint_dir batch_size num_epochs
    accumulate_steps lr (training_arguments : gmap string value) dtype :
  call_get_trainer resource training_dataset
    (training_args checkpoint_dir batch_size num_epochs accumulate_steps lr
       training_arguments dtype) =
  match training_arguments !! "train_dataset" with
  | Some _ =>
      raise (TypeError
               "got multiple values for keyword argument 'train_dataset'")
  | None =>
      ret (get_trainer resource training_dataset
             (training_args checkpoint_dir batch_size num_epochs
                accumulate_steps lr training_arguments dtype))
  end.
Proof.
  unfold call_get_trainer.
  destruct (training_arguments !! "train_dataset") as [v |] eqn:Hkw.
  - rewrite bool_decide_eq_true_2; [done |].
    rewrite elem_of_dom, training_args_lookup.
    destruct (dtype_based_params _ !! "train_dataset"); [by eexists |].
    rewrite Hkw. by eexists.
  - rewrite bool_decide_eq_false_2; [done |].
    rewrite elem_of_dom, training_args_lookup, Hkw,
      dtype_based_params_train_dataset, default_training_args_train_dataset.
    by intros [? ?].
Qed.

(** C2, as the code has it: with fewer than one epoch the training loop is
    never entered.  The base model is loaded exactly when it is accepted (a
    model name of a supported type, or a resource instance).  If it is and
    [train_dataset] is not among the keyword arguments, the call returns the
    wrapper around the trainer as [get_trainer] built it, and the warning is
    the last thing it logs.  If the base model is rejected the call raises the
    error of that check, and if [train_dataset] is among the keyword arguments
    it raises a [TypeError]; either way nothing is logged after the base model
    is loaded. *)
Theorem train_below_one_epoch base_model train_stream torch_dtype
    max_source_length max_target_length batch_size num_epochs
    accumulate_steps lr checkpoint_dir
    (training_arguments : gmap string value) :
  num_epochs < 1 ->
  let loaded := load_base_model base_model (get_torch_dtype torch_dtype) in
  let result :=
    train base_model train_stream torch_dtype max_source_length
      max_target_length batch_size num_epochs accumulate_steps lr
      checkpoint_dir training_arguments in
  (TrainerTrain ∉ trace result) /\
  (accepted_base_model base_model <->
   exists resource, outcome loaded = inr resource) /\
  (forall resource,
     outcome loaded = inr resource ->
     training_arguments !! "train_dataset" = None ->
     result =
     (inr {| self_tokenizer := base_tokenizer resource;
             self_model :=
               ModelTrainer
                 (get_trainer resource
                    (_preprocess_function resource train_stream
                       (base_tokenizer resource) max_source_length
                       max_target_length true)
                    (training_args checkpoint_dir batch_size num_epochs
                       accumulate_steps lr training_arguments
                       (get_torch_dtype torch_dtype))) |},
      trace loaded ++ [LogWarning "<NLP64076114W>"])) /\
  (forall e, outcome loaded = inl e -> result = (inl e, trace loaded)) /\
  (forall resource,
     outcome loaded = inr resource ->
     is_Some (training_arguments !! "train_dataset") ->
     exists msg, result = (inl (TypeError msg), trace loaded)).
Proof.
  intros Hepochs loaded result. apply Z.ltb_lt in Hepochs.
  split; [| split; [apply load_base_model_accepted |]].
  { subst result. unfold train.
    apply trace_bind_silent; [apply build_trainer_silent |].
    intros [resource t]. rewrite Hepochs. cbn.
    rewrite list_elem_of_singleton. congruence. }
  subst loaded result. unfold train, build_trainer.
  destruct (load_base_model base_model (get_torch_dtype torch_dtype))
    as [[e | r] events]; cbn [outcome trace fst snd].
  - split; [by intros resource [=] |].
    split; [| by intros resource [=]]. intros e' [= <-]. reflexivity.
  - split; [| split; [done |]].
    + intros resource [= ->] Hkw. cbn [bind].
      rewrite call_get_trainer_keyword, Hkw. cbn.
      by rewrite Hepochs, app_nil_r.
    + intros resource [= ->] [v Hkw]. cbn [bind].
      rewrite call_get_trainer_keyword, Hkw. cbn. rewrite app_nil_r.
      by eexists.
Qed.

(** C8: in every call of [train] the flags of the resolved dtype reach the
    trainer.  A call that returns holds the trainer [get_trainer] made with
    the merged arguments, and in them [float16] gives [fp16=True],
    [bfloat16] gives [bf16=True], and any other dtype contributes no flag:
    the entries [fp16] and [bf16] are then the caller's, if any.  A call that
    raises does so before a trainer is configured. *)
Theorem dtype_precision_flags base_model train_stream torch_dtype
    max_source_length max_target_length batch_size num_epochs
    accumulate_steps lr checkpoint_dir
    (training_arguments : gmap string value) :
  let dtype := get_torch_dtype torch_dtype in
  match outcome (train base_model train_stream torch_dtype max_source_length
                   max_target_length batch_size num_epochs accumulate_steps
                   lr checkpoint_dir training_arguments) with
  | inr wrapper =>
      exists resource args,
        (let built :=
           get_trainer resource
             (_preprocess_function resource train_stream
                (base_tokenizer resource) max_source_length
                max_target_length true)
             args in
         self_model wrapper =
           ModelTrainer
             (if num_epochs <? 1 then built else trainer_train built)) /\
        (dtype = float16 ->
           dtype_based_params dtype = {[ "fp16" := VBool true ]} /\
           args !! "fp16" = Some (VBool true) /\
           args !! "bf16" = training_arguments !! "bf16") /\
        (dtype = bfloat16 ->
           dtype_based_params dtype = {[ "bf16" := VBool true ]} /\
           args !! "bf16" = Some (VBool true) /\
           args !! "fp16" = training_arguments !! "fp16") /\
        (dtype ≠ float16 -> dtype ≠ bfloat16 ->
           dtype_based_params dtype = ∅ /\
           args !! "fp16" = training_arguments !! "fp16" /\
           args !! "bf16" = training_arguments !! "bf16")
  | inl e =>
      outcome (build_trainer base_model train_stream torch_dtype
                 max_source_length max_target_length batch_size num_epochs
                 accumulate_steps lr checkpoint_dir training_arguments) =
      inl e
  end.
Proof.
  intros dtype.
  pose proof (train_cases base_model train_stream torch_dtype
                max_source_length max_target_length batch_size num_epochs
                accumulate_steps lr checkpoint_dir training_arguments)
    as Hcases.
  destruct (outcome (train _ _ _ _ _ _ _ _ _ _ _)) as [e | wrapper];
    [exact Hcases |].
  destruct Hcases as (resource & _ & _ & ->).
  exists resource,
    (training_args checkpoint_dir batch_size num_epochs accumulate_steps lr
       training_arguments dtype).
  split; [done |]. rewrite !training_args_lookup.
  split; [| split].
  - intros ->. split; [done |]. split; [done |].
    cbn. by destruct (training_arguments !! "bf16").
  - intros ->. split; [done |]. split; [done |].
    cbn. by destruct (training_arguments !! "fp16").
  - intros Hhalf Hbrain. rewrite dtype_based_params_other by done.
    split; [done |]. rewrite !lookup_empty.
    split; [by destruct (training_arguments !! "fp16")
           | by destruct (training_arguments !! "bf16")].
Qed.

(** C9: in every call of [train] that returns, the trainer was made by
    [get_trainer] with a dictionary in which a keyword argument of the caller
    replaces the built-in default of the same name, and a dtype-derived flag
    replaces the caller's value of the same name: under [float16] the entry
    [fp16], and under [bfloat16] the entry [bf16], is [True] whatever the
    caller passed.  A call that raises does so before a trainer is
    configured. *)
Theorem training_args_precedence base_model train_stream torch_dtype
    max_source_length max_target_length batch_size num_epochs
    accumulate_steps lr checkpoint_dir
    (training_arguments : gmap string value) :
  let dtype := get_torch_dtype torch_dtype in
  match outcome (train base_model train_stream torch_dtype max_source_length
                   max_target_length batch_size num_epochs accumulate_steps
                   lr checkpoint_dir training_arguments) with
  | inr wrapper =>
      exists resource args,
        (let built :=
           get_trainer resource
             (_preprocess_function resource train_stream
                (base_tokenizer resource) max_source_length
                max_target_length true)
             args in
         self_model wrapper =
           ModelTrainer
             (if num_epochs <? 1 then built else trainer_train built)) /\
        (forall key v,
           training_arguments !! key = Some v ->
           dtype_based_params dtype !! key = None ->
           args !! key = Some v) /\
        (forall key v,
           dtype_based_params dtype !! key = Some v -> args !! key = Some v) /\
        (forall key,
           training_arguments !! key = None ->
           dtype_based_params dtype !! key = None ->
           args !! key =
           default_training_args checkpoint_dir batch_size num_epochs
             accumulate_steps lr !! key) /\
        (dtype = float16 -> args !! "fp16" = Some (VBool true)) /\
        (dtype = bfloat16 -> args !! "bf16" = Some (VBool true))
  | inl e =>
      outcome (build_trainer base_model train_stream torch_dtype
                 max_source_length max_target_length batch_size num_epochs
                 accumulate_steps lr checkpoint_dir training_arguments) =
      inl e
  end.
Proof.
  intros dtype.
  pose proof (train_cases base_model train_stream torch_dtype
                max_source_length max_target_length batch_size num_epochs
                accumulate_steps lr checkpoint_dir training_arguments)
    as Hcases.
  destruct (outcome (train _ _ _ _ _ _ _ _ _ _ _)) as [e | wrapper];
    [exact Hcases |].
  destruct Hcases as (resource & _ & _ & ->).
  exists resource,
    (training_args checkpoint_dir batch_size num_epochs accumulate_steps lr
       training_arguments dtype).
  split; [done |]. repeat split.
  - intros key v Hcaller Hflag.
    by rewrite training_args_lookup, Hflag, Hcaller.
  - intros key v Hflag. by rewrite training_args_lookup, Hflag.
  - intros key Hcaller Hflag.
    by rewrite training_args_lookup, Hflag, Hcaller.
  - intros Hdtype. by rewrite training_args_lookup, Hdtype.
  - intros Hdtype. by rewrite training_args_lookup, Hdtype.
Qed.

(** X5: the wrapper [train] returns holds the tokenizer of the loaded base
    model and the trainer that [get_trainer] made from that model, the
    preprocessed stream with shuffling on, and the merged training arguments;
    the trainer has gone through the training loop exactly when
    [num_epochs >= 1]. *)
Theorem train_wrapper_contents base_model train_stream torch_dtype
    max_source_length max_target_length batch_size num_epochs
    accumulate_steps lr checkpoint_dir
    (training_arguments : gmap string value) wrapper :
  outcome (train base_model train_stream torch_dtype max_source_length
             max_target_length batch_size num_epochs accumulate_steps lr
             checkpoint_dir training_arguments) = inr wrapper ->
  exists resource,
    outcome (load_base_model base_model (get_torch_dtype torch_dtype)) =
      inr resource /\
    let built :=
      get_trainer resource
        (_preprocess_function resource train_stream (base_tokenizer resource)
           max_source_length max_target_length true)
        (training_args checkpoint_dir batch_size num_epochs accumulate_steps
           lr training_arguments (get_torch_dtype torch_dtype)) in
    self_tokenizer wrapper = base_tokenizer resource /\
    self_model wrapper =
      ModelTrainer (if num_epochs <? 1 then built else trainer_train built).
Proof.
  intros (resource & t & Hbuilt & ->)%train_inr.
  apply build_trainer_inr in Hbuilt as (Hload & _ & -> & _).
  by exists resource.
Qed.

(** [train] on a resource instance, computed. *)
Lemma train_resource_result (resource : pretrained_model) train_stream
    torch_dtype max_source_length max_target_length batch_size num_epochs
    accumulate_steps lr checkpoint_dir
    (training_arguments : gmap string value) :
  training_arguments !! "train_dataset" = None ->
  let built :=
    get_trainer resource
      (_preprocess_function resource train_stream (base_tokenizer resource)
         max_source_length max_target_length true)
      (training_args checkpoint_dir batch_size num_epochs accumulate_steps
         lr training_arguments (get_torch_dtype torch_dtype)) in
  train (BaseResource resource) train_stream torch_dtype max_source_length
    max_target_length batch_size num_epochs accumulate_steps lr
    checkpoint_dir training_arguments =
  if num_epochs <? 1 then
    (inr {| self_tokenizer := base_tokenizer resource;
            self_model := ModelTrainer built |},
     [LogWarning "<NLP64076114W>"])
  else
    (inr {| self_tokenizer := base_tokenizer resource;
            self_model := ModelTrainer (trainer_train built) |},
     [TrainerTrain]).
Proof.
  intros Hkw built. subst built.
  unfold train, build_trainer, load_base_model. cbn.
  unfold call_get_trainer. rewrite bool_decide_eq_false_2.
  - cbn. by destruct (num_epochs <? 1).
  - rewrite elem_of_dom, training_args_lookup, Hkw,
      dtype_based_params_train_dataset, default_training_args_train_dataset.
    by intros [? ?].
Qed.

(** X6: a resource instance handed in as base model is used as it is: no
    lookup of a model type and no bootstrap.  With [train_dataset] among the
    keyword arguments the call is a [TypeError] and nothing is logged;
    otherwise it returns the wrapper around the trainer built from that very
    instance, and its whole trace is the warning (fewer than one epoch) or
    the training loop (otherwise).  [torch_dtype] enters through the training
    arguments only. *)
Theorem train_on_resource (resource : pretrained_model) train_stream
    torch_dtype max_source_length max_target_length batch_size num_epochs
    accumulate_steps lr checkpoint_dir
    (training_arguments : gmap string value) :
  let built :=
    get_trainer resource
      (_preprocess_function resource train_stream (base_tokenizer resource)
         max_source_length max_target_length true)
      (training_args checkpoint_dir batch_size num_epochs accumulate_steps
         lr training_arguments (get_torch_dtype torch_dtype)) in
  train (BaseResource resource) train_stream torch_dtype max_source_length
    max_target_length batch_size num_epochs accumulate_steps lr
    checkpoint_dir training_arguments =
  match training_arguments !! "train_dataset" with
  | Some _ =>
      (inl (TypeError
              "got multiple values for keyword argument 'train_dataset'"),
       [])
  | None =>
      if num_epochs <? 1 then
        (inr {| self_tokenizer := base_tokenizer resource;
                self_model := ModelTrainer built |},
         [LogWarning "<NLP64076114W>"])
      else
        (inr {| self_tokenizer := base_tokenizer resource;
                self_model := ModelTrainer (trainer_train built) |},
         [TrainerTrain])
  end.
Proof.
  intros built. subst built.
  destruct (training_arguments !! "train_dataset") as [v |] eqn:Hkw.
  - unfold train, build_trainer, load_base_model. cbn.
    by rewrite call_get_trainer_keyword, Hkw.
  - exact (train_resource_result resource train_stream torch_dtype
             max_source_length max_target_length batch_size num_epochs
             accumulate_steps lr checkpoint_dir training_arguments Hkw).
Qed.


Lemma filter_event_absent (ev : event) (events : list event) :
  ev ∉ events -> filter (fun e => e = ev) events = [].
Proof.
  induction events as [| e events IH]; [done |].
  intros [Hne Hrest]%not_elem_of_cons.
  rewrite filter_cons_False by congruence. by apply IH.
Qed.

(** X8: with [num_epochs >= 1] and the trainer built, [trainer.train()] is
    called exactly once, after everything else, and the wrapper holds the
    trainer as that call left it. *)
Theorem train_runs_loop_once base_model train_stream torch_dtype
    max_source_length max_target_length batch_size num_epochs
    accumulate_steps lr checkpoint_dir training_arguments resource t :
  1 <= num_epochs ->
  let built :=
    build_trainer base_model train_stream torch_dtype max_source_length
      max_target_length batch_size num_epochs accumulate_steps lr
      checkpoint_dir training_arguments in
  let result :=
    train base_model train_stream torch_dtype max_source_length
      max_target_length batch_size num_epochs accumulate_steps lr
      checkpoint_dir training_arguments in
  outcome built = inr (resource, t) ->
  outcome result =
    inr {| self_tokenizer := base_tokenizer resource;
           self_model := ModelTrainer (trainer_train t) |} /\
  last (trace result) = Some TrainerTrain /\
  length (filter (fun ev => ev = TrainerTrain) (trace result)) = 1%nat.
Proof.
  intros Hepochs built result Hbuilt.
  destruct (train_at_least_one_epoch base_model train_stream torch_dtype
              max_source_length max_target_length batch_size num_epochs
              accumulate_steps lr checkpoint_dir training_arguments
              resource t Hepochs Hbuilt) as [Hout Htrace].
  subst built result. split; [done |]. rewrite Htrace. split.
  - apply last_snoc.
  - rewrite filter_app, filter_event_absent by apply build_trainer_silent.
    reflexivity.
Qed.

(** X9: [train_dataset] cannot be passed through the keyword arguments: it
    would be given twice to [get_trainer], and the call is a [TypeError] once
    the base model is loaded, before any trainer exists and whatever the
    number of epochs. *)
Theorem train_rejects_train_dataset_keyword base_model train_stream
    torch_dtype max_source_length max_target_length batch_size num_epochs
    accumulate_steps lr checkpoint_dir
    (training_arguments : gmap string value) resource :
  is_Some (training_arguments !! "train_dataset") ->
  outcome (load_base_model base_model (get_torch_dtype torch_dtype)) =
    inr resource ->
  let result :=
    train base_model train_stream torch_dtype max_source_length
      max_target_length batch_size num_epochs accumulate_steps lr
      checkpoint_dir training_arguments in
  (exists msg, outcome result = inl (TypeError msg)) /\
  trace result =
    trace (load_base_model base_model (get_torch_dtype torch_dtype)).
Proof.
  intros [v Hkw] Hload result. subst result. unfold train, build_trainer.
  destruct (load_base_model base_model (get_torch_dtype torch_dtype))
    as [[e | r] events]; cbn in *; [done |].
  injection Hload as ->.
  unfold call_get_trainer. rewrite bool_decide_eq_true_2.
  - cbn. rewrite app_nil_r. split; [by eexists | done].
  - rewrite elem_of_dom, training_args_lookup.
    destruct (dtype_based_params _ !! "train_dataset"); [by eexists |].
    rewrite Hkw. by eexists.
Qed.

(** X10: the trainer arguments have exactly the keys of the dictionary
    display, of the caller's keyword arguments and of the dtype flags: no key
    is dropped and none is made up. *)
Theorem training_args_keys checkpoint_dir batch_size num_epochs
    accumulate_steps lr (training_arguments : gmap string value) dtype key :
  is_Some (training_args checkpoint_dir batch_size num_epochs
             accumulate_steps lr training_arguments dtype !! key) <->
  is_Some (dtype_based_params dtype !! key) \/
  is_Some (training_arguments !! key) \/
  key ∈ default_training_arg_names.
Proof.
  rewrite training_args_lookup.
  assert (is_Some (default_training_args checkpoint_dir batch_size num_epochs
                     accumulate_steps lr !! key) <->
          key ∈ default_training_arg_names) as Hdefault.
  { rewrite <- elem_of_dom. unfold default_training_args.
    rewrite dom_list_to_map_L, elem_of_list_to_set. reflexivity. }
  destruct (dtype_based_params dtype !! key) as [flag |];
    [split; [left; by eexists | by eexists] |].
  destruct (training_arguments !! key) as [given |];
    [split; [right; left; by eexists | by eexists] |].
  rewrite Hdefault. split; [auto |].
  intros [[? [=]] | [[? [=]] | ?]]. done.
Qed.

(** X11: a [num_train_epochs] passed through the keyword arguments replaces
    the one derived from [num_epochs] in the trainer arguments, but the
    decision to skip training looks at [num_epochs] alone: a call with
    [num_epochs < 1] that returns, for any base model, returns the trainer
    configured with the caller's epoch count and untrained. *)
Theorem train_skips_despite_num_train_epochs base_model train_stream
    torch_dtype max_source_length max_target_length batch_size num_epochs
    accumulate_steps lr checkpoint_dir
    (training_arguments : gmap string value) epochs wrapper :
  num_epochs < 1 ->
  training_arguments !! "num_train_epochs" = Some epochs ->
  let result :=
    train base_model train_stream torch_dtype max_source_length
      max_target_length batch_size num_epochs accumulate_steps lr
      checkpoint_dir training_arguments in
  outcome result = inr wrapper ->
  (exists resource args,
     self_model wrapper =
       ModelTrainer
         (get_trainer resource
            (_preprocess_function resource train_stream
               (base_tokenizer resource) max_source_length
               max_target_length true)
            args) /\
     args !! "num_train_epochs" = Some epochs) /\
  (TrainerTrain ∉ trace result).
Proof.
  intros Hepochs Hgiven result Hreturned. subst result.
  pose proof (train_cases base_model train_stream torch_dtype
                max_source_length max_target_length batch_size num_epochs
                accumulate_steps lr checkpoint_dir training_arguments)
    as Hcases.
  rewrite Hreturned in Hcases. destruct Hcases as (resource & _ & _ & ->).
  apply Z.ltb_lt in Hepochs. split.
  - eexists resource, _. cbn. rewrite Hepochs. split; [done |].
    rewrite training_args_lookup, Hgiven.
    by destruct (get_torch_dtype torch_dtype).
  - unfold train. apply trace_bind_silent; [apply build_trainer_silent |].
    intros [r t]. rewrite Hepochs. cbn.
    rewrite list_elem_of_singleton. congruence.
Qed.

(** X12: when the caller passes neither flag, the trainer arguments never
    carry both [fp16] and [bf16]. *)
Theorem precision_flags_exclusive checkpoint_dir batch_size num_epochs
    accumulate_steps lr (training_arguments : gmap string value) dtype :
  training_arguments !! "fp16" = None ->
  training_arguments !! "bf16" = None ->
  let args :=
    training_args checkpoint_dir batch_size num_epochs accumulate_steps lr
      training_arguments dtype in
  args !! "fp16" = None \/ args !! "bf16" = None.
Proof.
  intros Hhalf Hbrain args. subst args.
  rewrite !training_args_lookup, Hhalf, Hbrain.
  destruct dtype; cbn; auto.
Qed.

End fine_tuning_more.

Section run_more.
Context {lib : Library}.

(** X13: on a [Seq2SeqTrainer], [run] tokenizes the text to "pt" tensors,
    calls [prediction_step] on the trainer's own model with exactly
    [prediction_loss_only=False] and the two token limits, decodes with
    special tokens skipped, and returns the first decoded sequence; nothing
    is logged. *)
Theorem run_returns_first_decoded (self : FineTuning) (text : string)
    (preserve_input_text : bool) (max_new_tokens min_new_tokens : Z)
    model first rest :
  self_model self = ModelTrainer model ->
  isinstance_Seq2SeqTrainer model = true ->
  batch_decode (self_tokenizer self)
    (prediction_step model (trainer_model model)
       (tokenizer_call (self_tokenizer self) text "pt")
       (seq2seq_generate_args max_new_tokens min_new_tokens)).1.2
    true = first :: rest ->
  run self text preserve_input_text max_new_tokens min_new_tokens =
  (inr {| generated_text := first |}, []).
Proof.
  intros Hmodel Hclass Hdecoded.
  rewrite (run_seq2seq _ _ _ _ _ _ Hmodel Hclass). cbn zeta.
  unfold seq2seq_generate_args in Hdecoded. by rewrite Hdecoded.
Qed.

(** X14: on a model that is not a [Seq2SeqTrainer] the two refusals are told
    apart by their log code, NLP39984681E for a [Trainer] and NLP38929392E
    for anything else; that one log line is the whole trace, and the outcome
    is the same whatever text, flag and token limits are passed. *)
Theorem run_not_implemented_codes (self : FineTuning) (text : string)
    (preserve_input_text : bool) (max_new_tokens min_new_tokens : Z) :
  is_Seq2SeqTrainer (self_model self) = false ->
  (exists msg,
     run self text preserve_input_text max_new_tokens min_new_tokens =
     (inl (NotImplementedError msg),
      [LogError (if is_Trainer (self_model self) then "<NLP39984681E>"
                 else "<NLP38929392E>")])) /\
  (forall text' preserve_input_text' max_new_tokens' min_new_tokens',
     run self text' preserve_input_text' max_new_tokens' min_new_tokens' =
     run self text preserve_input_text max_new_tokens min_new_tokens).
Proof.
  unfold run, is_Seq2SeqTrainer, is_Trainer.
  destruct (self_model self) as [model | other]; [intros -> |]; cbn;
    (split; [by eexists | done]).
Qed.

End run_more.

(** ** Further properties of the reranker *)

Section reranker_more.
Context {enc : Encoder}.

(** X16: [run_queries] raises [TypeError] whenever [queries] or [documents]
    is not a list, be it a scalar or a mapping, whatever the other argument
    and [top_n] are. *)
Theorem run_queries_type_error (self : Rerank) (queries : list_arg string)
    (documents : list_arg document) (top_n : option Z) :
  (forall items, queries ≠ ArgList items) \/
  (forall items, documents ≠ ArgList items) ->
  exists msg,
    run_queries self queries documents top_n = (inl (TypeError msg), []).
Proof.
  intros [Hqueries | Hdocuments]; unfold run_queries.
  - destruct queries as [items | v | d]; [by destruct (Hqueries items) | |];
      by eexists.
  - destruct documents as [items | v | d];
      [by destruct (Hdocuments items) | |];
      destruct queries; by eexists.
Qed.

(** X17: a config with no inline weights and no model reference that can be
    resolved cannot be loaded: [load] raises [ValueError], makes no instance
    and leaves the world as it was. *)
Theorem load_without_artifacts_or_hf_model (config : ModuleConfig)
    (w : world) :
  artifacts config = None ->
  hf_model config ≫= resolve_hf_model = None ->
  exists msg, load (LoadConfig config) w = (inl (ValueError msg), w).
Proof.
  intros Hartifacts Hreference. unfold load, load_weights.
  rewrite Hartifacts, Hreference. by eexists.
Qed.

End reranker_more.

(** ** The properties at concrete calls *)

#[local] Existing Instance demo_library.
#[local] Existing Instance demo_encoder.

(** The table of [test_run_batch_top_n]. *)
Example test_run_batch_top_n :
  score_list_lengths <$> [Some 1; Some 2; None; Some (-1); Some 0; Some 9999] =
  Some <$>
    [[1; 1]; [2; 2]; [4; 4]; [4; 4]; [4; 4]; [4; 4]]%nat.
Proof. vm_compute. reflexivity. Qed.

(** The three queries-and-documents cases of
    [test_run_batch_no_queries_or_no_docs]. *)
Example test_run_batch_no_queries_or_no_docs :
  run_queries BOOTSTRAPPED_MODEL (ArgList []) (ArgList DOCS) (Some 9) =
    ret {| results := [] |} /\
  run_queries BOOTSTRAPPED_MODEL (ArgList QUERIES) (ArgList []) (Some 9) =
    ret {| results := [] |} /\
  run_queries BOOTSTRAPPED_MODEL (ArgList []) (ArgList []) (Some 9) =
    ret {| results := [] |}.
Proof. repeat split. Qed.

(** On a [Seq2SeqTrainer] the demo library echoes the text. *)
Example run_seq2seq_wrapper :
  run seq2seq_wrapper "hello" false 20 0 =
  ret {| generated_text := "hello" |}.
Proof. reflexivity. Qed.

Lemma dtype_precision_flags_witness :
  let caller : gmap string value := {[ "fp16" := VBool false ]} in
  let wrapper :=
    untrained_wrapper "t5"
      (training_args "/tmp" 8 0 32 (2 # 100000) caller float16) in
  outcome (demo_train_with "t5" (Some "float16") 0 caller) = inr wrapper /\
  exists resource args,
    self_model wrapper =
      ModelTrainer
        (get_trainer resource
           (_preprocess_function resource [("in", "out")]
              (base_tokenizer resource) 256 128 true)
           args) /\
    args !! "fp16" = Some (VBool true).
Proof.
  intros caller wrapper.
  assert (outcome (demo_train_with "t5" (Some "float16") 0 caller) =
          inr wrapper) as Hreturned by reflexivity.
  split; [exact Hreturned |].
  pose proof (dtype_precision_flags (lib := demo_library) (BaseStr "t5")
                [("in", "out")] (Some "float16") 256 128 8 0 32
                (2 # 100000) "/tmp" caller) as Hflags.
  cbv zeta in Hflags. unfold demo_train_with in Hreturned.
  rewrite Hreturned in Hflags.
  destruct Hflags as (resource & args & Hmodel & Hhalf & _ & _).
  destruct Hhalf as (_ & Hfp16 & _); [reflexivity |].
  exists resource, args. split; [exact Hmodel | exact Hfp16].
Defined.

Lemma training_args_precedence_witness :
  let caller : gmap string value :=
    {[ "output_dir" := VStr "/data"; "fp16" := VBool false ]} in
  let wrapper :=
    untrained_wrapper "t5"
      (training_args "/tmp" 8 0 32 (2 # 100000) caller float16) in
  outcome (demo_train_with "t5" (Some "float16") 0 caller) = inr wrapper /\
  exists resource args,
    self_model wrapper =
      ModelTrainer
        (get_trainer resource
           (_preprocess_function resource [("in", "out")]
              (base_tokenizer resource) 256 128 true)
           args) /\
    args !! "output_dir" = Some (VStr "/data") /\
    args !! "fp16" = Some (VBool true).
Proof.
  intros caller wrapper.
  assert (outcome (demo_train_with "t5" (Some "float16") 0 caller) =
          inr wrapper) as Hreturned by reflexivity.
  split; [exact Hreturned |].
  pose proof (training_args_precedence (lib := demo_library) (BaseStr "t5")
                [("in", "out")] (Some "float16") 256 128 8 0 32
                (2 # 100000) "/tmp" caller) as Hmerge.
  cbv zeta in Hmerge. unfold demo_train_with in Hreturned.
  rewrite Hreturned in Hmerge.
  destruct Hmerge as (resource & args & Hmodel & Hcaller & _ & _ & Hhalf & _).
  exists resource, args. split; [exact Hmodel |]. split.
  - apply Hcaller; reflexivity.
  - apply Hhalf. reflexivity.
Defined.

Lemma run_requires_seq2seq_trainer_witness :
  is_Seq2SeqTrainer (self_model plain_wrapper) = false /\
  exists msg,
    outcome (run plain_wrapper "hello" false 20 0) =
    inl (NotImplementedError msg).
Proof.
  split; [reflexivity |].
  destruct (run_requires_seq2seq_trainer plain_wrapper "hello" false 20 0)
    as (Hraises & _).
  apply Hraises. reflexivity.
Defined.

Lemma train_below_one_epoch_witness :
  0 < 1 /\
  outcome (load_base_model (BaseStr "t5") float32) = inr (true, "t5") /\
  (∅ : gmap string value) !! "train_dataset" = None /\
  demo_train "t5" 0 =
  (inr (untrained_wrapper "t5"
          (training_args "/tmp" 8 0 32 (2 # 100000) ∅ float32)),
   [LogDebug "Bootstrapping base resource [t5]";
    LogWarning "<NLP64076114W>"]).
Proof.
  split; [lia |]. split; [reflexivity |]. split; [reflexivity |].
  destruct (train_below_one_epoch (lib := demo_library) (BaseStr "t5")
              [("in", "out")] None 256 128 8 0 32 (2 # 100000) "/tmp" ∅
              ltac:(lia))
    as (_ & _ & Hreturns & _).
  exact (Hreturns (true, "t5") eq_refl eq_refl).
Defined.

(** C2 as stated fails: a model name of an unsupported type is rejected
    before the number of epochs is looked at, so a call with zero epochs
    raises. *)
Lemma train_below_one_epoch_raises :
  0 < 1 /\
  outcome (demo_train "bert" 0) =
    inl (ConfigurationError "bert model type is not supported currently!") /\
  ~ exists wrapper, outcome (demo_train "bert" 0) = inr wrapper.
Proof.
  split; [lia |]. split; [reflexivity |]. intros [wrapper Hreturned].
  discriminate Hreturned.
Qed.

Lemma run_queries_top_n_witness :
  QUERIES ≠ [] /\ DOCS ≠ [] /\
  exists prediction,
    outcome (run_queries BOOTSTRAPPED_MODEL (ArgList QUERIES) (ArgList DOCS)
               (Some 2)) = inr prediction /\
    length (results prediction) = 2%nat /\
    Forall (fun result => length (scores result) = 2%nat)
           (results prediction).
Proof.
  split; [discriminate |]. split; [discriminate |].
  destruct (run_queries_top_n BOOTSTRAPPED_MODEL QUERIES DOCS (Some 2)
              ltac:(discriminate) ltac:(discriminate))
    as (Hlength & _).
  exact Hlength.
Defined.

Lemma run_queries_empty_witness :
  (([] : list string) = [] \/ DOCS = []) /\
  exists prediction,
    outcome (run_queries BOOTSTRAPPED_MODEL (ArgList []) (ArgList DOCS)
               (Some 9)) = inr prediction /\
    results prediction = [].
Proof.
  split; [left; reflexivity |].
  apply (run_queries_empty BOOTSTRAPPED_MODEL [] DOCS (Some 9)).
  left. reflexivity.
Defined.

Lemma run_queries_passthrough_sorted_witness :
  let prediction :=
    {| results := rerank_query BOOTSTRAPPED_MODEL DOCS (Some 2) <$> QUERIES |}
  in
  outcome (run_queries BOOTSTRAPPED_MODEL (ArgList QUERIES) (ArgList DOCS)
             (Some 2)) = inr prediction /\
  exists docs,
    ArgList DOCS = ArgList docs /\
    Forall (fun result =>
              Forall (fun entry =>
                        docs !! corpus_id entry = Some (rs_document entry) /\
                        forall d key,
                          docs !! corpus_id entry = Some d ->
                          rs_document entry !! key = d !! key)
                     (scores result) /\
              StronglySorted score_ge (scores result))
           (results prediction).
Proof.
  intros prediction. split; [reflexivity |].
  apply (run_queries_passthrough_sorted BOOTSTRAPPED_MODEL (ArgList QUERIES)
           (ArgList DOCS) (Some 2) prediction).
  reflexivity.
Defined.

Lemma save_checks_witness :
  (forall path, VInt 1 ≠ VStr path) /\
  (exists msg,
     save BOOTSTRAPPED_MODEL (VInt 1) demo_world =
     (inl (TypeError msg), demo_world)) /\
  whitespace_only "   " = true /\
  (exists msg,
     save BOOTSTRAPPED_MODEL (VStr "   ") demo_world =
     (inl (ValueError msg), demo_world)) /\
  whitespace_only "/" = false /\
  is_Some (dirs demo_world !! target_dir "/") /\
  (exists msg,
     save BOOTSTRAPPED_MODEL (VStr "/") demo_world =
     (inl (FileExistsError msg), demo_world)).
Proof.
  split; [discriminate |]. split.
  { destruct (save_checks BOOTSTRAPPED_MODEL (VInt 1) demo_world)
      as (Htype & _).
    apply Htype. discriminate. }
  split; [reflexivity |]. split.
  { destruct (save_checks BOOTSTRAPPED_MODEL (VStr "   ") demo_world)
      as (_ & Hvalue & _).
    apply (Hvalue "   "); reflexivity. }
  split; [reflexivity |]. split; [by eexists |].
  destruct (save_checks BOOTSTRAPPED_MODEL (VStr "/") demo_world)
    as (_ & _ & Hexists & _).
  apply (Hexists "/"); [reflexivity | reflexivity | by eexists].
Defined.

Lemma save_load_roundtrip_witness :
  whitespace_only "model_id" = false /\
  dirs demo_world !! target_dir "model_id" = None /\
  (instance_id BOOTSTRAPPED_MODEL < instances demo_world)%nat /\
  let saved := save BOOTSTRAPPED_MODEL (VStr "model_id") demo_world in
  let loaded := load (LoadPath "model_id") saved.2 in
  saved.1 = inr tt /\
  loaded.1 = inr (@Build_Rerank demo_encoder 1%nat 0) /\
  (exists msg,
     (save BOOTSTRAPPED_MODEL (VStr "model_id") saved.2).1 =
     inl (FileExistsError msg)).
Proof.
  split; [reflexivity |]. split; [reflexivity |]. split; [cbn; lia |].
  destruct (save_load_roundtrip BOOTSTRAPPED_MODEL "model_id" demo_world
              eq_refl eq_refl ltac:(cbn; lia))
    as (Hsaved & _ & Hsecond & _).
  split; [exact Hsaved |]. split; [reflexivity | exact Hsecond].
Defined.

(** ** The further properties at concrete calls *)

Lemma train_unsupported_model_type_witness :
  Forall (fun r => from_pretrained_model_type "bert" ∉ SUPPORTED_MODEL_TYPES r)
         supported_resources /\
  demo_train "bert" 5 =
  (inl (ConfigurationError "bert model type is not supported currently!"),
   [LogError "<NLP61784225E>"]).
Proof.
  assert (Forall (fun r => from_pretrained_model_type "bert" ∉
                           SUPPORTED_MODEL_TYPES r) supported_resources)
    as Hnone.
  { repeat constructor; simpl; intros Hlisted%list_elem_of_In;
      simpl in Hlisted; intuition discriminate. }
  split; [exact Hnone |].
  exact (train_unsupported_model_type (lib := demo_library)
           "bert" [("in", "out")] None 256 128 8 5
           32 (2 # 100000) "/tmp" ∅ Hnone).
Defined.

Lemma load_base_model_bootstraps_first_witness :
  supported_resources = [false] ++ true :: [] /\
  from_pretrained_model_type "t5" ∈ SUPPORTED_MODEL_TYPES true /\
  Forall (fun r => from_pretrained_model_type "t5" ∉ SUPPORTED_MODEL_TYPES r)
         [false] /\
  load_base_model (BaseStr "t5") float16 =
  (inr (true, "t5"), [LogDebug "Bootstrapping base resource [t5]"]).
Proof.
  assert (from_pretrained_model_type "t5" ∈ SUPPORTED_MODEL_TYPES true)
    as Hin.
  { simpl. apply list_elem_of_here. }
  assert (Forall (fun r => from_pretrained_model_type "t5" ∉
                           SUPPORTED_MODEL_TYPES r) [false]) as Hbefore.
  { repeat constructor; simpl; intros Hlisted%list_elem_of_In;
      simpl in Hlisted; intuition discriminate. }
  split; [reflexivity |]. split; [exact Hin |]. split; [exact Hbefore |].
  exact (load_base_model_bootstraps_first (lib := demo_library)
           "t5" float16 [false] true []
           eq_refl Hin Hbefore).
Defined.

Lemma train_wrapper_contents_witness :
  let wrapper :=
    @Build_FineTuning demo_library "t5"
      (@ModelTrainer demo_library
         {| seq2seq := true;
            kwargs := training_args "/tmp" 8 0 32 (2 # 100000) ∅ float32;
            epochs_run := 0 |}) in
  outcome (demo_train "t5" 0) = inr wrapper /\
  exists resource,
    outcome (load_base_model (BaseStr "t5") float32) = inr resource /\
    self_tokenizer wrapper = base_tokenizer resource.
Proof.
  intros wrapper.
  assert (outcome (demo_train "t5" 0) = inr wrapper) as Hreturned
    by reflexivity.
  split; [exact Hreturned |].
  destruct (train_wrapper_contents (lib := demo_library)
              (BaseStr "t5") [("in", "out")] None 256
              128 8 0 32 (2 # 100000) "/tmp" ∅ wrapper Hreturned)
    as (resource & Hload & Htokenizer & _).
  exists resource. split; [exact Hload | exact Htokenizer].
Defined.

Lemma train_on_resource_witness :
  train (@BaseResource demo_library (true, "t5")) [("in", "out")]
    (Some "bfloat16") 256 128 8 3 32 (2 # 100000) "/tmp" ∅ =
  (inr (@Build_FineTuning demo_library "t5"
          (@ModelTrainer demo_library
             {| seq2seq := true;
                kwargs :=
                  training_args "/tmp" 8 3 32 (2 # 100000) ∅ bfloat16;
                epochs_run := 3 |})),
   [TrainerTrain]) /\
  train (@BaseResource demo_library (true, "t5")) [("in", "out")]
    (Some "bfloat16") 256 128 8 3 32 (2 # 100000) "/tmp"
    {[ "train_dataset" := VNone ]} =
  (inl (TypeError "got multiple values for keyword argument 'train_dataset'"),
   []).
Proof.
  split.
  - exact (train_on_resource (lib := demo_library) (true, "t5")
             [("in", "out")] (Some "bfloat16") 256 128 8 3 32 (2 # 100000)
             "/tmp" ∅).
  - exact (train_on_resource (lib := demo_library) (true, "t5")
             [("in", "out")] (Some "bfloat16") 256 128 8 3 32 (2 # 100000)
             "/tmp" {[ "train_dataset" := VNone ]}).
Defined.

Lemma train_runs_loop_once_witness :
  1 <= 5 /\
  outcome (build_trainer (BaseStr "t5") [("in", "out")] None 256 128 8 5 32
             (2 # 100000) "/tmp" ∅) =
    inr ((true, "t5"),
         {| seq2seq := true;
            kwargs := training_args "/tmp" 8 5 32 (2 # 100000) ∅ float32;
            epochs_run := 0 |}) /\
  outcome (demo_train "t5" 5) =
    inr (@Build_FineTuning demo_library "t5"
           (@ModelTrainer demo_library
              {| seq2seq := true;
                 kwargs := training_args "/tmp" 8 5 32 (2 # 100000) ∅ float32;
                 epochs_run := 5 |})) /\
  last (trace (demo_train "t5" 5)) = Some TrainerTrain /\
  length (filter (fun ev => ev = TrainerTrain) (trace (demo_train "t5" 5))) =
    1%nat.
Proof.
  split; [lia |]. split; [reflexivity |].
  exact (train_runs_loop_once (lib := demo_library)
           (BaseStr "t5") [("in", "out")] None 256 128 8 5
           32 (2 # 100000) "/tmp" ∅ (true, "t5")
           {| seq2seq := true;
              kwargs := training_args "/tmp" 8 5 32 (2 # 100000) ∅ float32;
              epochs_run := 0 |}
           ltac:(lia) eq_refl).
Defined.

Lemma train_rejects_train_dataset_keyword_witness :
  is_Some (({[ "train_dataset" := VNone ]} : gmap string value)
             !! "train_dataset") /\
  outcome (load_base_model (BaseStr "t5") float32) = inr (true, "t5") /\
  (exists msg,
     outcome (train (BaseStr "t5") [("in", "out")] None 256 128 8 5 32
                (2 # 100000) "/tmp" {[ "train_dataset" := VNone ]}) =
     inl (TypeError msg)) /\
  trace (train (BaseStr "t5") [("in", "out")] None 256 128 8 5 32
           (2 # 100000) "/tmp" {[ "train_dataset" := VNone ]}) =
    [LogDebug "Bootstrapping base resource [t5]"].
Proof.
  assert (is_Some (({[ "train_dataset" := VNone ]} : gmap string value)
                     !! "train_dataset")) as Hkw.
  { exists VNone. reflexivity. }
  split; [exact Hkw |]. split; [reflexivity |].
  exact (train_rejects_train_dataset_keyword (lib := demo_library)
           (BaseStr "t5") [("in", "out")]
           None 256 128 8 5 32 (2 # 100000) "/tmp"
           {[ "train_dataset" := VNone ]} (true, "t5") Hkw eq_refl).
Defined.

Lemma train_skips_despite_num_train_epochs_witness :
  let caller : gmap string value := {[ "num_train_epochs" := VInt 3 ]} in
  let wrapper :=
    untrained_wrapper "t5"
      (training_args "/tmp" 8 0 32 (2 # 100000) caller float32) in
  0 < 1 /\
  caller !! "num_train_epochs" = Some (VInt 3) /\
  outcome (demo_train_with "t5" None 0 caller) = inr wrapper /\
  (exists resource args,
     self_model wrapper =
       ModelTrainer
         (get_trainer resource
            (_preprocess_function resource [("in", "out")]
               (base_tokenizer resource) 256 128 true)
            args) /\
     args !! "num_train_epochs" = Some (VInt 3)) /\
  (TrainerTrain ∉ trace (demo_train_with "t5" None 0 caller)).
Proof.
  intros caller wrapper.
  assert (caller !! "num_train_epochs" = Some (VInt 3)) as Hgiven
    by reflexivity.
  assert (outcome (demo_train_with "t5" None 0 caller) = inr wrapper)
    as Hreturned by reflexivity.
  split; [lia |]. split; [exact Hgiven |]. split; [exact Hreturned |].
  exact (train_skips_despite_num_train_epochs (lib := demo_library)
           (BaseStr "t5") [("in", "out")] None 256 128 8 0 32 (2 # 100000)
           "/tmp" caller (VInt 3) wrapper ltac:(lia) Hgiven Hreturned).
Defined.

Lemma precision_flags_exclusive_witness :
  training_args "/tmp" 8 5 32 (2 # 100000) ∅ float16 !! "fp16" = None \/
  training_args "/tmp" 8 5 32 (2 # 100000) ∅ float16 !! "bf16" = None.
Proof.
  exact (precision_flags_exclusive "/tmp" 8 5 32 (2 # 100000) ∅ float16
           eq_refl eq_refl).
Defined.

Lemma run_returns_first_decoded_witness :
  run seq2seq_wrapper "hello" true 20 0 =
  (inr {| generated_text := "hello" |}, []).
Proof.
  exact (run_returns_first_decoded (lib := demo_library)
           seq2seq_wrapper "hello" true 20 0
           {| seq2seq := true; kwargs := ∅; epochs_run := 0 |} "hello" []
           eq_refl eq_refl eq_refl).
Defined.

Lemma run_not_implemented_codes_witness :
  is_Seq2SeqTrainer (self_model plain_wrapper) = false /\
  exists msg,
    run plain_wrapper "hello" false 20 0 =
    (inl (NotImplementedError msg), [LogError "<NLP39984681E>"]).
Proof.
  split; [reflexivity |].
  destruct (run_not_implemented_codes (lib := demo_library)
           plain_wrapper "hello" false 20 0
              eq_refl) as (Hraises & _).
  exact Hraises.
Defined.

Lemma run_queries_type_error_witness :
  ((forall items : list string,
      ArgScalar (VStr "test string") ≠ ArgList items) \/
   (forall items, ArgList DOCS ≠ ArgList items)) /\
  exists msg,
    run_queries BOOTSTRAPPED_MODEL (ArgScalar (VStr "test string"))
      (ArgList DOCS) None = (inl (TypeError msg), []).
Proof.
  assert ((forall items : list string,
              ArgScalar (VStr "test string") ≠ ArgList items) \/
          (forall items, ArgList DOCS ≠ ArgList items)) as Hscalar.
  { left. discriminate. }
  split; [exact Hscalar |].
  exact (run_queries_type_error BOOTSTRAPPED_MODEL
           (ArgScalar (VStr "test string")) (ArgList DOCS) None Hscalar).
Defined.

Lemma load_without_artifacts_or_hf_model_witness :
  exists msg,
    load (LoadConfig {| artifacts := None; hf_model := None |}) demo_world =
    (inl (ValueError msg), demo_world).
Proof.
  exact (load_without_artifacts_or_hf_model
           {| artifacts := None; hf_model := None |} demo_world
           eq_refl eq_refl).
Defined.
